(** * express-mongodb-auth: the registration pipeline

    A shallow embedding of [models/User.js] (the user schema and its
    [pre('save')] hook) and of [index.js] (start-up and the
    [POST /register] handler). The code awaits promises and mutates a
    store, a random source and a console: these live in an explicit
    [world], and an awaited call is a function from world to world and
    result. The libraries the code calls (bcryptjs, Mongoose, Express) are
    not part of the repository; each is modelled where it is used, from
    what the spec and the README say about it. *)

From Stdlib Require Import String Ascii List ZArith NArith Lia Bool.
From Stdlib Require Import DecimalString HexString.
Import ListNotations.
Open Scope string_scope.

(** ** Strings by position *)

Fixpoint take (n : nat) (s : string) : string :=
  match n, s with
  | S n', String c s' => String c (take n' s')
  | _, _ => EmptyString
  end.

Fixpoint drop (n : nat) (s : string) : string :=
  match n, s with
  | S n', String _ s' => drop n' s'
  | _, _ => s
  end.

(** ** JavaScript values, as [JSON.parse] produces them *)

Module JS.

#[local] Unset Elimination Schemes.
Inductive value :=
| Undefined
| Null
| Bool (b : bool)
| Num (z : Z)
| Str (s : string)
| Arr (xs : list value)
| Obj (props : list (string * value)).
#[local] Set Elimination Schemes.

Fixpoint lookup (k : string) (props : list (string * value)) : value :=
  match props with
  | [] => Undefined
  | (k', v) :: rest => if String.eqb k k' then v else lookup k rest
  end.

(** [v.k] for a key no prototype defines ([name], [email], [password]):
    reading a property of [undefined] or [null] throws a [TypeError]
    ([None]); every other value answers, with [undefined] when it has no
    such own property. *)
Definition get (v : value) (k : string) : option value :=
  match v with
  | Undefined | Null => None
  | Obj props => Some (lookup k props)
  | Bool _ | Num _ | Str _ | Arr _ => Some Undefined
  end.

(** [String(n)] for an integral number. *)
Definition number_to_string (z : Z) : string :=
  NilZero.string_of_int (Z.to_int z).

End JS.

(** ** Documents, errors, and the world the server runs in *)

(** A path of a document: unset ([undefined]/[null]) or a string. *)
Definition field := option string.

Record document := mkDocument {
  _id : N;
  name : field;
  email : field;
  password : field;
  __v : option N;
  castErrors : list string
}.

Inductive error :=
| TypeError (msg : string)
| ValidationError (paths : list string)
| HashingError (msg : string)
| DuplicateKeyError (path : string)
| ConnectivityError (msg : string).

(** Calls into bcryptjs and the driver, in the order they are made. *)
Inductive call :=
| CallGenSalt (rounds : nat) (salt : string)
| CallHash (plain salt digest : string)
| CallInsertOne (doc : document).

Inductive line :=
| Log (v : JS.value)
| LogText (s : string)
| LogError (ctx : string) (e : error).

Record world := mkWorld {
  users : list document;      (* the [users] collection, oldest first *)
  connected : bool;           (* the process-wide connection is up *)
  entropy : string;           (* what the random source will still yield *)
  next_oid : N;               (* ObjectId generator *)
  calls : list call;
  console : list line;
  listening : option nat      (* the port the HTTP server is bound to *)
}.

Inductive result (A : Type) :=
| Ok (a : A)
| Throw (e : error).
Arguments Ok {A} a.
Arguments Throw {A} e.

(** Awaited computations: a state monad over [world] with exceptions. *)
Definition M (A : Type) : Type := world -> world * result A.

Definition ret {A} (a : A) : M A := fun w => (w, Ok a).
Definition throw {A} (e : error) : M A := fun w => (w, Throw e).
Definition bind {A B} (m : M A) (k : A -> M B) : M B :=
  fun w => match m w with
           | (w', Ok a) => k a w'
           | (w', Throw e) => (w', Throw e)
           end.
Definition try_catch {A} (body : M A) (handler : error -> M A) : M A :=
  fun w => match body w with
           | (w', Ok a) => (w', Ok a)
           | (w', Throw e) => handler e w'
           end.

Declare Scope await_scope.
Delimit Scope await_scope with await.
Notation "x <- m ;; k" := (bind m (fun x => k))
  (at level 100, m at next level, right associativity) : await_scope.
Notation "m ;;; k" := (bind m (fun _ => k))
  (at level 100, right associativity) : await_scope.
Open Scope await_scope.

Definition set_users (us : list document) (w : world) : world :=
  mkWorld us (connected w) (entropy w) (next_oid w) (calls w) (console w)
          (listening w).

Definition set_connected (b : bool) (w : world) : world :=
  mkWorld (users w) b (entropy w) (next_oid w) (calls w) (console w)
          (listening w).

Definition set_entropy (e : string) (w : world) : world :=
  mkWorld (users w) (connected w) e (next_oid w) (calls w) (console w)
          (listening w).

Definition set_next_oid (n : N) (w : world) : world :=
  mkWorld (users w) (connected w) (entropy w) n (calls w) (console w)
          (listening w).

Definition set_listening (p : option nat) (w : world) : world :=
  mkWorld (users w) (connected w) (entropy w) (next_oid w) (calls w)
          (console w) p.

Definition record_call (c : call) : M unit :=
  fun w => (mkWorld (users w) (connected w) (entropy w) (next_oid w)
                    (calls w ++ [c]) (console w) (listening w), Ok tt).

Definition console_write (l : line) : M unit :=
  fun w => (mkWorld (users w) (connected w) (entropy w) (next_oid w)
                    (calls w) (console w ++ [l]) (listening w), Ok tt).

(** ** bcryptjs: the secret hasher

    bcryptjs is a dependency; its code is not part of the repository. The
    hook of [models/User.js] calls [genSalt] and [hash]; they are modelled
    from what the spec (section 4.1) and the README say about them. *)

Module Bcrypt.
Section Hasher.

(** The Blowfish-based core of the scheme: key material and salt to the
    encoded hash. It is the one part taken as a parameter. *)
Variable crypt_raw : string -> string -> string.

(** Modelled from the spec: the cost factor is "a conventional work
    factor, e.g. 10 rounds"; the scheme keeps it between 4 and 31. *)
Definition clamp_rounds (rounds : nat) : nat :=
  if (rounds <? 4)%nat then 4%nat
  else if (31 <? rounds)%nat then 31%nat else rounds.

(** Modelled from the spec: the cost factor as the digest embeds it, in
    two digits. *)
Definition two_digits (n : nat) : string :=
  (if (n <? 10)%nat then "0" else "") ++ NilEmpty.string_of_uint (Nat.to_uint n).

(** Modelled from the spec: the digest "embeds the salt and cost factor";
    the digest the README shows starts with [$2a$10$]. *)
Definition salt_header (rounds : nat) : string :=
  "$2a$" ++ two_digits (clamp_rounds rounds) ++ "$".

(** Encoded length of the 16 random bytes of a salt. *)
Definition SALT_CHARS : nat := 22.
(** Length of a salt string for a two-digit cost: header and salt. *)
Definition SALT_LENGTH : nat := 29.
(** The scheme reads at most this many bytes of its input. *)
Definition MAX_INPUT : nat := 72.

(** Modelled from the spec: salt generation fails "if the underlying
    random-salt generation fails (e.g., entropy source failure)". The
    random source is the world's [entropy]; it fails once exhausted. *)
Definition random (n : nat) : M string :=
  fun w =>
    if (String.length (entropy w) <? n)%nat
    then (w, Throw (HashingError "random source failed"))
    else (set_entropy (drop n (entropy w)) w, Ok (take n (entropy w))).

(** Modelled from the spec: [genSalt] "generates a fresh random salt per
    call": the header, then [SALT_CHARS] characters off the random
    source. *)
Definition genSalt (rounds : nat) : M string :=
  raw <- random SALT_CHARS ;;
  let salt := salt_header rounds ++ raw in
  record_call (CallGenSalt rounds salt) ;;;
  ret salt.

(** Modelled from the spec: the digest "embeds the salt and cost factor so
    verification is self-contained", and "the same inputs with a captured
    salt reproduce the digest". Of the input, the scheme keys its cipher
    with the first [MAX_INPUT] bytes only (the limit bcryptjs documents);
    a string stands for its UTF-8 bytes. *)
Definition digest (plain salt : string) : string :=
  salt ++ crypt_raw (take MAX_INPUT plain) salt.

(** Modelled from the spec: hashing fails "if input is not a valid text
    value". *)
Definition hash (s : JS.value) (salt : string) : M string :=
  match s with
  | JS.Str plain =>
      let d := digest plain salt in
      record_call (CallHash plain salt d) ;;; ret d
  | _ => throw (HashingError "Illegal arguments")
  end.

(** Modelled from the spec: verification is "a separate compare-by-rehash
    operation": rehash under the salt the digest embeds. *)
Definition compare (plain dig : string) : bool :=
  String.eqb (digest plain (take SALT_LENGTH dig)) dig.

End Hasher.
End Bcrypt.

(** ** Mongoose: schemas, casting, validation and [save]

    Mongoose and the store behind it are dependencies; their code is not
    part of the repository. What [models/User.js] and [index.js] use of
    them is modelled from the spec (sections 3 and 4.2). *)

Module Mongoose.

Record SchemaType := mkSchemaType { required : bool; unique : bool }.

Definition Schema := list (string * SchemaType).

Definition has_path (schema : Schema) (p : string) : bool :=
  existsb (fun entry => String.eqb p (fst entry)) schema.

Inductive cast_result :=
| Cast (f : field)
| CastError.

(** The caster of a [String] path, which the spec leaves to the store:
    [null] and [undefined] stay unset, primitives go through [toString()],
    an object carrying a string [_id] is read as that id, arrays and other
    objects do not cast. *)
Definition castString (v : JS.value) : cast_result :=
  match v with
  | JS.Undefined | JS.Null => Cast None
  | JS.Str s => Cast (Some s)
  | JS.Num z => Cast (Some (JS.number_to_string z))
  | JS.Bool b => Cast (Some (if b then "true" else "false"))
  | JS.Arr _ => CastError
  | JS.Obj props =>
      match JS.lookup "_id" props with
      | JS.Str (String c s) => Cast (Some (String c s))
      | _ => CastError
      end
  end.

(** Only paths the schema declares are read from the constructor's
    argument. *)
Definition cast_path (schema : Schema) (obj : JS.value) (p : string)
  : cast_result :=
  if has_path schema p then
    match JS.get obj p with
    | Some v => castString v
    | None => Cast None
    end
  else Cast None.

Definition cast_value (c : cast_result) : field :=
  match c with Cast f => f | CastError => None end.

Definition cast_failed (c : cast_result) : bool :=
  match c with Cast _ => false | CastError => true end.

(** Modelled from the spec: [id] is "generated at creation". [new
    Model(obj)] gives the document a fresh id, casts the declared paths
    and remembers failed casts for validation. Nothing is written. *)
Definition construct (schema : Schema) (obj : JS.value) : M document :=
  fun w =>
    let get p := cast_path schema obj p in
    let errs := filter (fun p => cast_failed (get p)) (map fst schema) in
    (set_next_oid (N.succ (next_oid w)) w,
     Ok (mkDocument (next_oid w)
                    (cast_value (get "name"))
                    (cast_value (get "email"))
                    (cast_value (get "password"))
                    None errs)).

Definition path_value (d : document) (p : string) : field :=
  if String.eqb p "name" then name d
  else if String.eqb p "email" then email d
  else if String.eqb p "password" then password d
  else None.

(** Modelled from the spec: a required text is "required, non-empty". *)
Definition checkRequired (f : field) : bool :=
  match f with
  | Some s => negb (String.eqb s "")
  | None => false
  end.

Definition invalid (d : document) (entry : string * SchemaType) : bool :=
  existsb (String.eqb (fst entry)) (castErrors d)
  || (required (snd entry) && negb (checkRequired (path_value d (fst entry)))).

(** Modelled from the spec: the store "validates presence of name, email,
    password before attempting persistence". The paths that fail, in
    schema order. *)
Definition validate (schema : Schema) (d : document) : list string :=
  map fst (filter (invalid d) schema).

Definition field_eqb (a b : field) : bool :=
  match a, b with
  | Some x, Some y => String.eqb x y
  | None, None => true
  | _, _ => false
  end.

(** Modelled from the spec: the store "enforces a uniqueness constraint on
    email". The first [unique] path on which [d] collides with a stored
    document. *)
Definition duplicate_key (schema : Schema) (coll : list document)
           (d : document) : option string :=
  find (fun p => existsb (fun d' => field_eqb (path_value d' p)
                                             (path_value d p)) coll)
       (map fst (filter (fun entry => unique (snd entry)) schema)).

Definition set_version (d : document) (v : N) : document :=
  mkDocument (_id d) (name d) (email d) (password d) (Some v) (castErrors d).

(** Modelled from the spec: "a duplicate fails with a DuplicateKeyError,
    leaving existing data untouched"; "exactly one document is created in
    the backing store per successful call"; an unreachable store at write
    time is a ConnectivityError. *)
Definition insertOne (schema : Schema) (d : document) : M document :=
  record_call (CallInsertOne d) ;;;
  fun w =>
    if negb (connected w)
    then (w, Throw (ConnectivityError "users.insertOne() buffering timed out"))
    else
      match duplicate_key schema (users w) d with
      | Some p => (w, Throw (DuplicateKeyError p))
      | None => (set_users (users w ++ [d]) w, Ok d)
      end.

(** Modelled from the spec: [doc.save()] for a new document validates
    "before attempting persistence", then runs the schema's [pre('save')]
    hook "before the write", then inserts. *)
Definition save (schema : Schema) (pre_save : document -> M document)
           (d : document) : M document :=
  match validate schema d with
  | [] =>
      d' <- pre_save d ;;
      insertOne schema (set_version d' 0)
  | paths => throw (ValidationError paths)
  end.

Definition findOne (p : string) (v : string) (coll : list document)
  : option document :=
  find (fun d => field_eqb (path_value d p) (Some v)) coll.

Definition oid_string (n : N) : string := HexString.of_N n.

Definition json_path (p : string) (f : field) : list (string * JS.value) :=
  match f with
  | Some s => [(p, JS.Str s)]
  | None => []
  end.

(** Modelled from the spec: "the full stored representation including the
    store-assigned id and the hashed password", with the fields of the
    response the README shows. *)
Definition toJSON (d : document) : JS.value :=
  JS.Obj (json_path "name" (name d)
          ++ json_path "email" (email d)
          ++ json_path "password" (password d)
          ++ [("_id", JS.Str (oid_string (_id d)))]
          ++ match __v d with
             | Some v => [("__v", JS.Num (Z.of_N v))]
             | None => []
             end).

End Mongoose.

(** ** models/User.js *)

Module User.
Section Model.

Variable crypt_raw : string -> string -> string.

Definition userSchema : Mongoose.Schema :=
  [ ("name", Mongoose.mkSchemaType true false);
    ("email", Mongoose.mkSchemaType true true);
    ("password", Mongoose.mkSchemaType true false) ].

Definition this_password (this : document) : JS.value :=
  match password this with
  | Some s => JS.Str s
  | None => JS.Undefined
  end.

Definition set_password (this : document) (s : string) : document :=
  mkDocument (_id this) (name this) (email this) (Some s) (__v this)
             (castErrors this).

(** [userSchema.pre('save', ...)] *)
Definition pre_save (this : document) : M document :=
  salt <- Bcrypt.genSalt 10 ;;
  let plainTextPassword := this_password this in
  encryptedPassword <- Bcrypt.hash crypt_raw plainTextPassword salt ;;
  ret (set_password this encryptedPassword).

(** [new User(obj)] *)
Definition new (obj : JS.value) : M document :=
  Mongoose.construct userSchema obj.

(** [user.save()] *)
Definition save (user : document) : M document :=
  Mongoose.save userSchema pre_save user.

(** The store's [create]: construct the candidate, then save it. *)
Definition create (candidate : JS.value) : M document :=
  user <- new candidate ;;
  save user.

End Model.
End User.

(** ** index.js *)

Module App.

Definition port : nat := 3000.

Record environment := mkEnvironment {
  ATLAS_URL : option string;     (* [process.env.ATLAS_URL] *)
  reachable : string -> bool     (* the URIs a cluster answers on *)
}.

Inductive promise (A : Type) :=
| Fulfilled (a : A)
| Rejected (e : error).
Arguments Fulfilled {A} a.
Arguments Rejected {A} e.

(** [p.then(f)]: [f] runs on fulfilment; a rejection passes through. *)
Definition then_ {A B} (p : promise A) (f : A -> M B) : M (promise B) :=
  match p with
  | Fulfilled a =>
      fun w => match f a w with
               | (w', Ok b) => (w', Ok (Fulfilled b))
               | (w', Throw e) => (w', Ok (Rejected e))
               end
  | Rejected e => ret (Rejected e)
  end.

(** [p.catch(g)]: [g] runs on rejection and settles it. *)
Definition catch_ {A} (p : promise A) (g : error -> M A) : M (promise A) :=
  match p with
  | Fulfilled a => ret (Fulfilled a)
  | Rejected e =>
      fun w => match g e w with
               | (w', Ok a) => (w', Ok (Fulfilled a))
               | (w', Throw e') => (w', Ok (Rejected e'))
               end
  end.

(** Modelled from the spec: with the connection string absent or invalid
    "the connection attempt fails". [mongoose.connect(uri, options)]
    rejects when the uri is not a string or no cluster answers on it. *)
Definition connect (env : environment) (uri : option string)
  : M (promise unit) :=
  match uri with
  | None =>
      ret (Rejected (ConnectivityError "The uri parameter to openUri() must be a string"))
  | Some u =>
      if reachable env u
      then fun w => (set_connected true w, Ok (Fulfilled tt))
      else ret (Rejected (ConnectivityError "Could not connect to any servers"))
  end.

(** [app.listen(port, callback)] *)
Definition listen (p : nat) (callback : M unit) : M unit :=
  (fun w => (set_listening (Some p) w, Ok tt)) ;;;
  callback.

(** Lines 16-26: the connection attempt with its [.then] and [.catch]
    callbacks. [mongoose.connect] only starts the attempt; the chain runs
    when the attempt settles. *)
Definition connecting (env : environment) (uri : option string)
  : M (promise unit) :=
  p <- connect env uri ;;
  p <- then_ p (fun _ => console_write (LogText "Connected to MongoDB")) ;;
  catch_ p (fun error =>
              console_write (LogError "Error connecting to MongoDB:" error)).

(** The top level of [index.js]. The script starts the connection attempt
    and calls [app.listen] in one synchronous run; the attempt settles
    only after that run has ended, and the listening callback, queued on
    the next tick, comes before any promise callback. So the port is bound
    and the server line logged first, and the connection chain runs after.
    The boolean tells whether the process is still alive afterwards: an
    exception of the script or a promise left rejected ends it. *)
Definition main (env : environment) (w : world) : world * bool :=
  let atlasUrl := ATLAS_URL env in
  let pending := connecting env atlasUrl in
  let script :=
    listen port
           (console_write (LogText "Server is running at http://localhost:3000")) ;;;
    pending in
  match script w with
  | (w', Ok (Fulfilled _)) => (w', true)
  | (w', Ok (Rejected _)) => (w', false)
  | (w', Throw _) => (w', false)
  end.

Record request := mkRequest { body : JS.value }.

Record Response := mkResponse {
  statusCode : nat;
  sent : list (nat * JS.value)
}.

Definition fresh_response : Response := mkResponse 200 [].

(** [res.status(code)] *)
Definition status (res : Response) (code : nat) : Response :=
  mkResponse code (sent res).

(** [res.json(v)] *)
Definition json (res : Response) (v : JS.value) : Response :=
  mkResponse (statusCode res) (sent res ++ [(statusCode res, v)]).

(** [v.k] as a statement of the handler. *)
Definition member (v : JS.value) (k : string) : M JS.value :=
  match JS.get v k with
  | Some x => ret x
  | None => throw (TypeError ("Cannot read properties of undefined (reading '" ++ k ++ "')"))
  end.

Definition failure_body : JS.value :=
  JS.Obj [("error", JS.Str "Failed to save user")].

(** [res.send(text)] *)
Definition send (res : Response) (text : string) : Response :=
  mkResponse (statusCode res) (sent res ++ [(statusCode res, JS.Str text)]).

(** [app.get('/', (req, res) => ...)] *)
Definition root (req : request) (res : Response) : M Response :=
  ret (send res "Hello, World!").

(** One [GET /] request against the server. *)
Definition get_root (req : request) : M Response :=
  root req fresh_response.

(** The object literal the handler builds from the body. *)
Definition user_data (data_name data_email data_password : JS.value)
  : JS.value :=
  JS.Obj [ ("name", data_name);
           ("email", data_email);
           ("password", data_password) ].

Section Handler.

Variable crypt_raw : string -> string -> string.

(** [app.post('/register', async (req, res) => ...)] *)
Definition register (req : request) (res : Response) : M Response :=
  let data := body req in
  data_name <- member data "name" ;;
  data_email <- member data "email" ;;
  data_password <- member data "password" ;;
  user <- User.new (user_data data_name data_email data_password) ;;
  try_catch
    (savedUser <- User.save crypt_raw user ;;
     console_write (Log (Mongoose.toJSON savedUser)) ;;;
     ret (json res (Mongoose.toJSON savedUser)))
    (fun e =>
       console_write (LogError "" e) ;;;
       ret (json (status res 500) failure_body)).

(** One [POST /register] request against the server. *)
Definition post_register (req : request) : M Response :=
  register req fresh_response.

End Handler.
End App.

(** ** A stand-in core for running the model *)

(** Not bcrypt: a fixed 31-character string, enough to run the pipeline on
    concrete requests. *)
Definition demo_crypt (key salt : string) : string :=
  "Zb3BwzjesDmL9HZrZNKW6eQ5.8xZEH4".

Definition demo_world : world :=
  mkWorld [] true "N9qo8uLOickgx2ZMRZoMyeIjZAgcfl7p92ldGxad68LJ" 1 [] [] (Some 3000).

Definition jennifer : JS.value :=
  JS.Obj [ ("name", JS.Str "Jennifer");
           ("email", JS.Str "jen@example.com");
           ("password", JS.Str "secret123") ].

(** The candidate [new User(jennifer)] builds in [demo_world], the document
    its [save] stores, and the world after the whole [create]. *)
Definition demo_user : document :=
  mkDocument 1 (Some "Jennifer") (Some "jen@example.com") (Some "secret123")
             None [].

Definition demo_digest : string :=
  "$2a$10$N9qo8uLOickgx2ZMRZoMyeZb3BwzjesDmL9HZrZNKW6eQ5.8xZEH4".

Definition demo_saved : document :=
  mkDocument 1 (Some "Jennifer") (Some "jen@example.com") (Some demo_digest)
             (Some 0%N) [].

(** [demo_world] once [new User(jennifer)] has run. *)
Definition demo_pending : world := set_next_oid 2 demo_world.

Definition demo_after : world :=
  fst (User.create demo_crypt jennifer demo_world).

(** The value an awaited computation resolved to, or a default. *)
Definition snd_ok {A} (default : A) (out : world * result A) : A :=
  match snd out with
  | Ok a => a
  | Throw _ => default
  end.


(** ** Vocabulary of the statements *)

(** The salt the next [genSalt(10)] returns in [w]. *)
Definition upcoming_salt (w : world) : string :=
  Bcrypt.salt_header 10 ++ take Bcrypt.SALT_CHARS (entropy w).

(** The random source can serve one more salt. *)
Definition can_salt (w : world) : Prop :=
  Bcrypt.SALT_CHARS <= String.length (entropy w).

(** The world once the hook has drawn [salt] and hashed [plain], and the
    insert of [d] has been issued. *)
Definition after_hook (w : world) (plain salt dig : string) (d : document)
  : world :=
  mkWorld (users w) (connected w) (drop Bcrypt.SALT_CHARS (entropy w))
          (next_oid w)
          (((calls w ++ [CallGenSalt 10 salt]) ++ [CallHash plain salt dig])
             ++ [CallInsertOne d])
          (console w) (listening w).

(** A required path fails validation: its cast failed, or it is missing
    or empty. *)
Definition fails (d : document) (p : string) (f : field) : bool :=
  existsb (String.eqb p) (castErrors d) || negb (Mongoose.checkRequired f).

(** The handler answered once, with the saved user or the fixed failure. *)
Definition answered_once (out : world * result App.Response) : Prop :=
  exists w' res r,
    out = (w', Ok res) /\ App.sent res = [r] /\
    (r = (500, App.failure_body)
     \/ exists saved, r = (200, Mongoose.toJSON saved) /\ In saved (users w')).

(** The world after the server handled the registration requests one
    after the other. *)
Fixpoint serve (crypt_raw : string -> string -> string)
         (reqs : list App.request) (w : world) : world :=
  match reqs with
  | [] => w
  | req :: rest => serve crypt_raw rest (fst (App.post_register crypt_raw req w))
  end.

(** No two stored users share an email. *)
Definition distinct_emails (w : world) : Prop :=
  NoDup (map email (users w)).

(** A string shaped like a digest of the scheme at cost 10: the header,
    and at least a whole salt. *)
Definition digest_shaped (s : string) : bool :=
  String.prefix (Bcrypt.salt_header 10) s
  && (Bcrypt.SALT_LENGTH <=? String.length s)%nat.

(** A stored user as the pipeline leaves it: name and email present and
    not empty, a digest for a password, version 0. *)
Definition well_stored (d : document) : Prop :=
  (exists n, name d = Some n /\ n <> "") /\
  (exists e, email d = Some e /\ e <> "") /\
  (exists dig, password d = Some dig /\ digest_shaped dig = true) /\
  __v d = Some 0%N.

(** * Properties *)

(** ** Strings *)

Lemma length_append (a b : string) :
  String.length (a ++ b) = String.length a + String.length b.
Proof. induction a as [|c a IH]; simpl; [reflexivity | now rewrite IH]. Qed.

Lemma take_length_append (a b : string) :
  take (String.length a) (a ++ b) = a.
Proof. induction a as [|c a IH]; simpl; [now destruct b | now rewrite IH]. Qed.

Lemma length_take (n : nat) (s : string) :
  n <= String.length s -> String.length (take n s) = n.
Proof.
  revert s; induction n as [|n IH]; intros [|c s] H; simpl in *; try lia.
  now rewrite IH by lia.
Qed.


Lemma prefix_append (a b : string) : String.prefix a (a ++ b) = true.
Proof.
  induction a as [|c a IH]; simpl; [now destruct b|].
  destruct (ascii_dec c c) as [_|N]; [exact IH | now elim N].
Qed.

Lemma prefix_append_inv (a b s : string) :
  String.prefix (a ++ b) s = true -> String.prefix a s = true.
Proof.
  revert s; induction a as [|c a IH]; intros [|c' s] H; simpl in *;
    try reflexivity; try discriminate.
  destruct (ascii_dec c c'); [now apply IH | discriminate].
Qed.

Lemma ltb_length_false (s : string) (n : nat) :
  n <= String.length s -> (String.length s <? n)%nat = false.
Proof. intros H. apply Nat.ltb_ge. exact H. Qed.

(** ** The save pipeline, step by step *)

Section Pipeline.

Variable crypt_raw : string -> string -> string.

Abbreviation digest := (Bcrypt.digest crypt_raw).
Abbreviation save := (User.save crypt_raw).
Abbreviation create := (User.create crypt_raw).

Lemma validate_unfold (d : document) :
  Mongoose.validate User.userSchema d =
  ((if fails d "name" (name d) then ["name"] else [])
     ++ (if fails d "email" (email d) then ["email"] else [])
     ++ (if fails d "password" (password d) then ["password"] else []))%list.
Proof.
  unfold Mongoose.validate, User.userSchema. cbn [filter].
  change (Mongoose.invalid d ("name", Mongoose.mkSchemaType true false))
    with (fails d "name" (name d)).
  change (Mongoose.invalid d ("email", Mongoose.mkSchemaType true true))
    with (fails d "email" (email d)).
  change (Mongoose.invalid d ("password", Mongoose.mkSchemaType true false))
    with (fails d "password" (password d)).
  destruct (fails d "name" (name d)), (fails d "email" (email d)),
    (fails d "password" (password d)); reflexivity.
Qed.

Lemma fails_false (d : document) (p : string) (f : field) :
  fails d p f = false <->
  existsb (String.eqb p) (castErrors d) = false /\
  exists s, f = Some s /\ s <> "".
Proof.
  unfold fails, Mongoose.checkRequired. rewrite orb_false_iff, negb_false_iff.
  split; intros [Hc Hr]; split; try exact Hc.
  - destruct f as [s|]; [|discriminate]. exists s. split; [reflexivity|].
    apply negb_true_iff, String.eqb_neq in Hr. exact Hr.
  - destruct Hr as (s & -> & Hs). apply negb_true_iff, String.eqb_neq, Hs.
Qed.

Lemma validate_userSchema (d : document) :
  Mongoose.validate User.userSchema d = [] <->
  fails d "name" (name d) = false /\
  fails d "email" (email d) = false /\
  fails d "password" (password d) = false.
Proof.
  rewrite validate_unfold.
  destruct (fails d "name" (name d)), (fails d "email" (email d)),
    (fails d "password" (password d)); simpl; intuition discriminate.
Qed.

(** [save] on a document that passes validation. *)
Lemma save_valid (d : document) (w : world) :
  Mongoose.validate User.userSchema d = [] ->
  save d w =
  if (String.length (entropy w) <? Bcrypt.SALT_CHARS)%nat
  then (w, Throw (HashingError "random source failed"))
  else
    match password d with
    | None =>
        (mkWorld (users w) (connected w) (drop Bcrypt.SALT_CHARS (entropy w))
                 (next_oid w) (calls w ++ [CallGenSalt 10 (upcoming_salt w)])
                 (console w) (listening w),
         Throw (HashingError "Illegal arguments"))
    | Some plain =>
        let salt := upcoming_salt w in
        let dig := digest plain salt in
        let d' := Mongoose.set_version (User.set_password d dig) 0 in
        let w1 := after_hook w plain salt dig d' in
        if negb (connected w)
        then (w1, Throw (ConnectivityError "users.insertOne() buffering timed out"))
        else if existsb (fun x => Mongoose.field_eqb (email x) (email d)) (users w)
             then (w1, Throw (DuplicateKeyError "email"))
             else (set_users (users w ++ [d']) w1, Ok d')
    end.
Proof.
  intros Hv. unfold User.save, Mongoose.save. rewrite Hv.
  unfold bind, User.pre_save, Bcrypt.genSalt, Bcrypt.random, bind.
  destruct (String.length (entropy w) <? Bcrypt.SALT_CHARS)%nat; [reflexivity|].
  unfold User.this_password.
  destruct (password d) as [plain|]; [|reflexivity].
  unfold after_hook, upcoming_salt.
  cbn -[take drop Bcrypt.salt_header Bcrypt.digest].
  destruct (connected w); cbn -[take drop Bcrypt.salt_header Bcrypt.digest].
  - destruct (existsb _ (users w)); reflexivity.
  - reflexivity.
Qed.

Lemma save_invalid (d : document) (w : world) :
  Mongoose.validate User.userSchema d <> [] ->
  save d w = (w, Throw (ValidationError (Mongoose.validate User.userSchema d))).
Proof.
  intros Hv. unfold User.save, Mongoose.save.
  destruct (Mongoose.validate User.userSchema d); [now elim Hv | reflexivity].
Qed.

End Pipeline.

(** ** Constructing a candidate *)

Lemma cast_path_userSchema (obj : JS.value) (p : string) :
  p = "name" \/ p = "email" \/ p = "password" ->
  Mongoose.cast_path User.userSchema obj p =
  match JS.get obj p with
  | Some v => Mongoose.castString v
  | None => Mongoose.Cast None
  end.
Proof. intros [-> | [-> | ->]]; reflexivity. Qed.

Lemma existsb_filter_paths (g : string -> bool) (p : string) :
  p = "name" \/ p = "email" \/ p = "password" ->
  existsb (String.eqb p) (filter g ["name"; "email"; "password"]) = g p.
Proof.
  intros [-> | [-> | ->]]; cbn [filter];
    destruct (g "name"), (g "email"), (g "password"); reflexivity.
Qed.

Lemma new_run (obj : JS.value) (w : world) :
  exists d,
    User.new obj w = (set_next_oid (N.succ (next_oid w)) w, Ok d) /\
    _id d = next_oid w /\ __v d = None /\
    name d = Mongoose.cast_value (Mongoose.cast_path User.userSchema obj "name") /\
    email d = Mongoose.cast_value (Mongoose.cast_path User.userSchema obj "email") /\
    password d = Mongoose.cast_value (Mongoose.cast_path User.userSchema obj "password") /\
    (forall p, p = "name" \/ p = "email" \/ p = "password" ->
       existsb (String.eqb p) (castErrors d) =
       Mongoose.cast_failed (Mongoose.cast_path User.userSchema obj p)).
Proof.
  eexists. split; [reflexivity|]. cbn [_id __v name email password castErrors].
  repeat split.
  intros p Hp.
  exact (existsb_filter_paths
           (fun q => Mongoose.cast_failed (Mongoose.cast_path User.userSchema obj q))
           p Hp).
Qed.

Lemma create_run (crypt_raw : string -> string -> string)
      (obj : JS.value) (w : world) :
  exists d,
    User.new obj w = (set_next_oid (N.succ (next_oid w)) w, Ok d) /\
    User.create crypt_raw obj w =
    User.save crypt_raw d (set_next_oid (N.succ (next_oid w)) w).
Proof.
  destruct (new_run obj w) as (d & Hd & _). exists d. split; [exact Hd|].
  unfold User.create, bind. rewrite Hd. reflexivity.
Qed.

(** ** What a finished [save] tells *)

Section Outcomes.

Variable crypt_raw : string -> string -> string.

Abbreviation digest := (Bcrypt.digest crypt_raw).
Abbreviation save := (User.save crypt_raw).
Abbreviation create := (User.create crypt_raw).

Lemma save_ok_inv (user saved : document) (w w' : world) :
  save user w = (w', Ok saved) ->
  exists plain,
    let salt := upcoming_salt w in
    let dig := digest plain salt in
    Mongoose.validate User.userSchema user = [] /\
    password user = Some plain /\
    can_salt w /\
    connected w = true /\
    existsb (fun x => Mongoose.field_eqb (email x) (email user)) (users w) = false /\
    saved = Mongoose.set_version (User.set_password user dig) 0 /\
    w' = set_users (users w ++ [saved]) (after_hook w plain salt dig saved).
Proof.
  intros H.
  destruct (Mongoose.validate User.userSchema user) eqn:Hv.
  - rewrite (save_valid crypt_raw user w Hv) in H.
    destruct (String.length (entropy w) <? Bcrypt.SALT_CHARS)%nat eqn:Hs;
      [discriminate|].
    destruct (password user) as [plain|] eqn:Hp; [|discriminate].
    cbv zeta in H.
    destruct (connected w) eqn:Hc; [|discriminate].
    destruct (existsb _ (users w)) eqn:Hd; [discriminate|].
    cbn [negb] in H. injection H as <- <-.
    exists plain. cbv zeta. repeat split; try assumption; try reflexivity.
    apply Nat.ltb_ge in Hs. exact Hs.
  - rewrite save_invalid in H by (rewrite Hv; discriminate). discriminate.
Qed.

(** A failed [save] writes nothing, and its error tells which stage
    refused. *)
Lemma save_throw_inv (user : document) (w w' : world) (e : error) :
  save user w = (w', Throw e) ->
  users w' = users w /\ connected w' = connected w /\
  console w' = console w /\ listening w' = listening w /\
  next_oid w' = next_oid w /\
  ((exists paths, e = ValidationError paths /\ paths <> [] /\
                  paths = Mongoose.validate User.userSchema user /\ w' = w)
   \/ (exists msg, e = HashingError msg /\ ~ can_salt w /\ w' = w)
   \/ (exists msg, e = ConnectivityError msg /\ connected w = false)
   \/ (e = DuplicateKeyError "email" /\
       existsb (fun x => Mongoose.field_eqb (email x) (email user)) (users w) = true)).
Proof.
  intros H.
  destruct (Mongoose.validate User.userSchema user) eqn:Hv.
  - rewrite (save_valid crypt_raw user w Hv) in H.
    apply validate_userSchema in Hv. destruct Hv as (_ & _ & Hp).
    apply fails_false in Hp. destruct Hp as (_ & plain & Hp & _).
    rewrite Hp in H.
    destruct (String.length (entropy w) <? Bcrypt.SALT_CHARS)%nat eqn:Hs.
    + injection H as <- <-. repeat split.
      right; left. eexists. repeat split.
      unfold can_salt. apply Nat.ltb_lt in Hs. lia.
    + cbv zeta in H. destruct (connected w) eqn:Hc; cbn [negb] in H.
      * destruct (existsb _ (users w)) eqn:Hd; [|discriminate].
        injection H as <- <-. repeat split; try exact Hc.
        right; right; right. split; reflexivity.
      * injection H as <- <-. repeat split; try exact Hc.
        right; right; left. eexists. split; reflexivity.
  - rewrite save_invalid in H by (rewrite Hv; discriminate).
    injection H as <- <-. repeat split.
    left. eexists.
    split; [reflexivity | split; [rewrite Hv; discriminate | now split]].
Qed.

End Outcomes.

(** ** The hasher *)

Lemma digest_reads_prefix (crypt_raw : string -> string -> string)
      (p q salt : string) :
  take Bcrypt.MAX_INPUT p = take Bcrypt.MAX_INPUT q ->
  Bcrypt.digest crypt_raw p salt = Bcrypt.digest crypt_raw q salt.
Proof. intros H. unfold Bcrypt.digest. now rewrite H. Qed.

Lemma digest_differs (crypt_raw : string -> string -> string)
      (plain salt : string) :
  String.prefix salt plain = false ->
  Bcrypt.digest crypt_raw plain salt <> plain.
Proof.
  intros Hp Heq. unfold Bcrypt.digest in Heq.
  rewrite <- Heq, prefix_append in Hp. discriminate.
Qed.

(** A plain text that is not itself shaped like a digest of the scheme
    cannot begin with a salt, whatever the random source serves. *)
Lemma plain_password_fresh (w : world) (plain : string) :
  String.prefix (Bcrypt.salt_header 10) plain = false ->
  String.prefix (upcoming_salt w) plain = false.
Proof.
  intros H. destruct (String.prefix (upcoming_salt w) plain) eqn:Hp;
    [|reflexivity].
  apply prefix_append_inv in Hp. congruence.
Qed.

(** ** The claims *)

(** X14. A successful save has made exactly three calls, in this order:
    one [genSalt(10)], one [hash] of the plain text under that salt, one
    [insertOne]; the document appended to the collection holds the digest
    that [hash] returned; and that digest can equal the plain text only
    if the plain text itself begins with the salt just drawn. *)
Theorem save_hashes_once_before_insert
    (crypt_raw : string -> string -> string)
    (user saved : document) (w w' : world) (plain : string) :
  User.save crypt_raw user w = (w', Ok saved) ->
  password user = Some plain ->
  password saved = Some (Bcrypt.digest crypt_raw plain (upcoming_salt w)) /\
  calls w' =
    (calls w ++
       [ CallGenSalt 10 (upcoming_salt w);
         CallHash plain (upcoming_salt w)
                  (Bcrypt.digest crypt_raw plain (upcoming_salt w));
         CallInsertOne saved ])%list /\
  users w' = (users w ++ [saved])%list /\
  (password saved = Some plain ->
   String.prefix (upcoming_salt w) plain = true).
Proof.
  intros Hsave Hplain.
  apply save_ok_inv in Hsave.
  destruct Hsave as (plain' & _ & Hp & _ & _ & _ & Hsaved & Hw').
  rewrite Hplain in Hp. injection Hp as <-.
  assert (Hpw : password saved
                = Some (Bcrypt.digest crypt_raw plain (upcoming_salt w)))
    by (rewrite Hsaved; reflexivity).
  split; [exact Hpw|]. split; [|split].
  - rewrite Hw'. cbn [calls set_users after_hook].
    rewrite <- !app_assoc. reflexivity.
  - rewrite Hw'. reflexivity.
  - rewrite Hpw. intros [= Heq].
    destruct (String.prefix (upcoming_salt w) plain) eqn:Hpre; [reflexivity|].
    now apply digest_differs in Heq.
Qed.

Lemma save_hashes_once_before_insert_witness :
  password demo_saved = Some demo_digest /\
  calls demo_after
  = [ CallGenSalt 10 "$2a$10$N9qo8uLOickgx2ZMRZoMye";
      CallHash "secret123" "$2a$10$N9qo8uLOickgx2ZMRZoMye" demo_digest;
      CallInsertOne demo_saved ] /\
  users demo_after = [demo_saved].
Proof.
  destruct (save_hashes_once_before_insert
              demo_crypt demo_user demo_saved demo_pending demo_after "secret123")
    as (H1 & H2 & H3 & _);
    [reflexivity | reflexivity |].
  split; [exact H1 | split; [exact H2 | exact H3]].
Defined.

Lemma find_none_existsb {A} (f : A -> bool) (l : list A) :
  find f l = None <-> existsb f l = false.
Proof.
  induction l as [|x l IH]; simpl; [tauto|].
  destruct (f x); simpl; [split; discriminate | exact IH].
Qed.

Lemma find_app_last {A} (f : A -> bool) (l : list A) (x : A) :
  existsb f l = false -> f x = true -> find f (l ++ [x]) = Some x.
Proof.
  induction l as [|y l IH]; simpl; intros Hl Hx.
  - now rewrite Hx.
  - apply orb_false_iff in Hl. destruct Hl as [Hy Hl].
    rewrite Hy. now apply IH.
Qed.

Lemma findOne_email (e : string) (coll : list document) :
  Mongoose.findOne "email" e coll =
  find (fun d => Mongoose.field_eqb (email d) (Some e)) coll.
Proof. reflexivity. Qed.

Lemma field_eqb_refl (f : field) : Mongoose.field_eqb f f = true.
Proof. destruct f; simpl; [apply String.eqb_refl | reflexivity]. Qed.

(** A candidate whose three properties are non-empty strings constructs
    to a clean document. *)
Lemma new_text (candidate : JS.value) (n e p : string) (w : world) :
  JS.get candidate "name" = Some (JS.Str n) ->
  JS.get candidate "email" = Some (JS.Str e) ->
  JS.get candidate "password" = Some (JS.Str p) ->
  User.new candidate w =
  (set_next_oid (N.succ (next_oid w)) w,
   Ok (mkDocument (next_oid w) (Some n) (Some e) (Some p) None [])).
Proof.
  intros Hn He Hp. unfold User.new, Mongoose.construct.
  cbn [map fst filter User.userSchema].
  rewrite !cast_path_userSchema by tauto.
  rewrite Hn, He, Hp. reflexivity.
Qed.

Lemma validate_text (id : N) (n e p : string) :
  n <> "" -> e <> "" -> p <> "" ->
  Mongoose.validate User.userSchema
                    (mkDocument id (Some n) (Some e) (Some p) None []) = [].
Proof.
  intros Hn He Hp. apply validate_userSchema.
  split; [|split]; apply fails_false;
    (split; [reflexivity | eexists; split; [reflexivity | assumption]]).
Qed.

(** X15. A candidate with non-empty text for name, email and password and
    an email no stored user has is saved when the store is connected and
    the random source alive: the stored user carries the input's name and
    email and, for a password, the digest of the input under the salt
    drawn, which can equal the input only if the input itself begins with
    that salt; the user is appended and found under its email. *)
Theorem create_stores_input_under_digest
    (crypt_raw : string -> string -> string)
    (candidate : JS.value) (n e p : string) (w : world) :
  JS.get candidate "name" = Some (JS.Str n) -> n <> "" ->
  JS.get candidate "email" = Some (JS.Str e) -> e <> "" ->
  JS.get candidate "password" = Some (JS.Str p) -> p <> "" ->
  Mongoose.findOne "email" e (users w) = None ->
  connected w = true ->
  can_salt w ->
  exists saved w',
    User.create crypt_raw candidate w = (w', Ok saved) /\
    name saved = Some n /\
    email saved = Some e /\
    password saved = Some (Bcrypt.digest crypt_raw p (upcoming_salt w)) /\
    (password saved = Some p -> String.prefix (upcoming_salt w) p = true) /\
    users w' = (users w ++ [saved])%list /\
    Mongoose.findOne "email" e (users w') = Some saved.
Proof.
  intros Hn Hn0 He He0 Hp Hp0 Hfresh Hconn Hsalt.
  unfold User.create, bind. rewrite (new_text candidate n e p w Hn He Hp).
  set (d := mkDocument (next_oid w) (Some n) (Some e) (Some p) None []).
  set (w0 := set_next_oid (N.succ (next_oid w)) w).
  rewrite (save_valid crypt_raw d w0 (validate_text _ n e p Hn0 He0 Hp0)).
  rewrite findOne_email, find_none_existsb in Hfresh.
  change (entropy w0) with (entropy w).
  rewrite (ltb_length_false _ _ Hsalt).
  cbn [password d]. cbv zeta.
  change (connected w0) with (connected w). rewrite Hconn. cbn [negb].
  change (users w0) with (users w). cbn [email d]. rewrite Hfresh.
  change (upcoming_salt w0) with (upcoming_salt w).
  eexists. eexists. split; [reflexivity|].
  cbn [name email password Mongoose.set_version User.set_password].
  repeat split.
  - intros [= Heq].
    destruct (String.prefix (upcoming_salt w) p) eqn:Hpre; [reflexivity|].
    now apply digest_differs in Heq.
  - rewrite findOne_email. apply find_app_last; [exact Hfresh|].
    cbn [email Mongoose.set_version User.set_password].
    apply field_eqb_refl.
Qed.

Lemma create_stores_input_under_digest_witness :
  exists saved w',
    User.create demo_crypt jennifer demo_world = (w', Ok saved) /\
    name saved = Some "Jennifer" /\
    email saved = Some "jen@example.com" /\
    password saved = Some demo_digest /\
    users w' = [saved] /\
    Mongoose.findOne "email" "jen@example.com" (users w') = Some saved.
Proof.
  destruct (create_stores_input_under_digest
              demo_crypt jennifer "Jennifer" "jen@example.com" "secret123"
              demo_world)
    as (saved & w' & H1 & H2 & H3 & H4 & _ & H6 & H7);
    try reflexivity; try discriminate.
  - unfold can_salt, Bcrypt.SALT_CHARS; simpl; lia.
  - exists saved, w'. repeat split; assumption.
Defined.

Lemma fails_in_validate (d : document) (p : string) :
  p = "name" \/ p = "email" \/ p = "password" ->
  fails d p (Mongoose.path_value d p) = true ->
  In p (Mongoose.validate User.userSchema d).
Proof.
  intros Hp Hf. rewrite validate_unfold.
  destruct Hp as [-> | [-> | ->]];
    change (Mongoose.path_value d "name") with (name d) in Hf;
    change (Mongoose.path_value d "email") with (email d) in Hf;
    change (Mongoose.path_value d "password") with (password d) in Hf;
    rewrite Hf; rewrite ?in_app_iff; simpl; tauto.
Qed.

Lemma new_path_value (obj : JS.value) (w w' : world) (d : document) (p : string) :
  p = "name" \/ p = "email" \/ p = "password" ->
  User.new obj w = (w', Ok d) ->
  Mongoose.path_value d p =
  Mongoose.cast_value (Mongoose.cast_path User.userSchema obj p).
Proof.
  intros Hp Hd. destruct (new_run obj w) as (d0 & Hd0 & _ & _ & Hn & He & Hw & _).
  rewrite Hd0 in Hd. injection Hd as _ <-.
  destruct Hp as [-> | [-> | ->]]; assumption.
Qed.

(** C3. A candidate that lacks one of name, email and password is refused
    with a ValidationError naming that path; nothing is hashed, no insert
    is issued and the collection is as it was. *)
Theorem missing_field_rejected
    (crypt_raw : string -> string -> string)
    (candidate : JS.value) (p : string) (w : world) :
  p = "name" \/ p = "email" \/ p = "password" ->
  JS.get candidate p = Some JS.Undefined ->
  exists paths w',
    User.create crypt_raw candidate w = (w', Throw (ValidationError paths)) /\
    In p paths /\
    users w' = users w /\
    calls w' = calls w.
Proof.
  intros Hp Habsent.
  destruct (create_run crypt_raw candidate w) as (d & Hnew & Hcreate).
  assert (Hin : In p (Mongoose.validate User.userSchema d)).
  { apply fails_in_validate; [exact Hp|].
    rewrite (new_path_value candidate w _ d p Hp Hnew).
    rewrite (cast_path_userSchema candidate p Hp), Habsent.
    unfold fails. cbn [Mongoose.castString Mongoose.cast_value
                       Mongoose.checkRequired negb].
    apply orb_true_r. }
  exists (Mongoose.validate User.userSchema d).
  exists (set_next_oid (N.succ (next_oid w)) w).
  split; [|split; [exact Hin | split; reflexivity]].
  rewrite Hcreate. apply save_invalid.
  intros Hnil. rewrite Hnil in Hin. exact Hin.
Qed.

Lemma missing_field_rejected_witness :
  exists paths w',
    User.create demo_crypt
                (JS.Obj [("name", JS.Str "Jennifer"); ("password", JS.Str "secret123")])
                demo_world
    = (w', Throw (ValidationError paths)) /\
    In "email" paths /\
    users w' = users demo_world /\
    calls w' = calls demo_world.
Proof.
  apply (missing_field_rejected demo_crypt _ "email" demo_world).
  - right; left; reflexivity.
  - reflexivity.
Defined.

Lemma create_ok_inv (crypt_raw : string -> string -> string)
      (candidate : JS.value) (w w' : world) (saved : document) :
  User.create crypt_raw candidate w = (w', Ok saved) ->
  users w' = (users w ++ [saved])%list /\
  connected w' = true /\
  _id saved = next_oid w /\
  email saved =
    Mongoose.cast_value (Mongoose.cast_path User.userSchema candidate "email") /\
  existsb (fun x => Mongoose.field_eqb (email x) (email saved)) (users w) = false /\
  (exists s, email saved = Some s /\ s <> "").
Proof.
  intros H.
  destruct (new_run candidate w) as (d & Hnew & Hid & _ & _ & He & _ & _).
  unfold User.create, bind in H. rewrite Hnew in H.
  apply save_ok_inv in H.
  destruct H as (plain & Hv & _ & _ & Hc & Hdup & Hsaved & Hw').
  apply validate_userSchema in Hv. destruct Hv as (_ & Hve & _).
  apply fails_false in Hve. destruct Hve as (_ & Hve).
  subst w'. rewrite Hsaved.
  split; [reflexivity|]. split; [exact Hc|]. split; [exact Hid|].
  split; [exact He|]. split; [exact Hdup | exact Hve].
Qed.

Lemma create_throw_inv (crypt_raw : string -> string -> string)
      (candidate : JS.value) (w w' : world) (e : error) :
  User.create crypt_raw candidate w = (w', Throw e) ->
  users w' = users w /\ connected w' = connected w /\
  console w' = console w /\ listening w' = listening w /\
  ((exists paths, e = ValidationError paths)
   \/ (exists msg, e = HashingError msg)
   \/ (exists msg, e = ConnectivityError msg)
   \/ e = DuplicateKeyError "email").
Proof.
  intros H.
  destruct (new_run candidate w) as (d & Hnew & _).
  unfold User.create, bind in H. rewrite Hnew in H.
  apply save_throw_inv in H.
  destruct H as (Hu & Hc & Ho & Hl & _ & Hk).
  repeat split; try assumption.
  destruct Hk as [(paths & -> & _) | [(msg & -> & _) | [(msg & -> & _) | (-> & _)]]];
    eauto.
Qed.

(** C4. Once a registration under an email has succeeded, a second one
    with the same email fails: a well-formed candidate is refused with a
    DuplicateKeyError on the email, any candidate at all with that email
    is refused, and either way the collection is as the first call left
    it, its record still found under the email. *)
Theorem duplicate_email_rejected
    (crypt_raw : string -> string -> string)
    (first second : JS.value) (e n p : string) (w w1 : world)
    (d1 : document) :
  JS.get first "email" = Some (JS.Str e) ->
  User.create crypt_raw first w = (w1, Ok d1) ->
  JS.get second "name" = Some (JS.Str n) -> n <> "" ->
  JS.get second "email" = Some (JS.Str e) ->
  JS.get second "password" = Some (JS.Str p) -> p <> "" ->
  can_salt w1 ->
  (exists w2,
      User.create crypt_raw second w1 = (w2, Throw (DuplicateKeyError "email")) /\
      users w2 = users w1 /\
      Mongoose.findOne "email" e (users w2) = Some d1) /\
  (forall other w2 r,
      JS.get other "email" = Some (JS.Str e) ->
      User.create crypt_raw other w1 = (w2, r) ->
      (exists err, r = Throw err) /\
      users w2 = users w1 /\
      Mongoose.findOne "email" e (users w2) = Some d1).
Proof.
  intros Hfirst Hcreate Hn Hn0 He Hp Hp0 Hsalt.
  apply create_ok_inv in Hcreate.
  destruct Hcreate as (Hu & Hc & _ & Hemail & Hdup & (s & Hs & He0)).
  rewrite (cast_path_userSchema first "email") in Hemail by tauto.
  rewrite Hfirst in Hemail. cbn in Hemail.
  rewrite Hemail in Hs. injection Hs as <-.
  rewrite Hemail in Hdup.
  assert (Hfound : Mongoose.findOne "email" e (users w1) = Some d1).
  { rewrite findOne_email, Hu. apply find_app_last; [exact Hdup|].
    rewrite Hemail. apply field_eqb_refl. }
  assert (Htaken :
            existsb (fun x => Mongoose.field_eqb (email x) (Some e)) (users w1)
            = true).
  { rewrite Hu, existsb_app. cbn [existsb]. rewrite Hemail, field_eqb_refl.
    now rewrite orb_true_r. }
  split.
  - unfold User.create, bind. rewrite (new_text second n e p w1 Hn He Hp).
    rewrite (save_valid crypt_raw _ _ (validate_text _ n e p Hn0 He0 Hp0)).
    change (entropy (set_next_oid (N.succ (next_oid w1)) w1)) with (entropy w1).
    rewrite (ltb_length_false _ _ Hsalt). cbn [password]. cbv zeta.
    change (connected (set_next_oid (N.succ (next_oid w1)) w1))
      with (connected w1).
    rewrite Hc. cbn [negb email].
    change (users (set_next_oid (N.succ (next_oid w1)) w1)) with (users w1).
    rewrite Htaken.
    eexists. split; [reflexivity|]. split; [reflexivity | exact Hfound].
  - intros other w2 r Hother Hrun.
    destruct r as [saved|err].
    + apply create_ok_inv in Hrun.
      destruct Hrun as (_ & _ & _ & Hemail' & Hdup' & _).
      rewrite (cast_path_userSchema other "email") in Hemail' by tauto.
      rewrite Hother in Hemail'. cbn in Hemail'.
      rewrite Hemail', Htaken in Hdup'. discriminate.
    + apply create_throw_inv in Hrun. destruct Hrun as (Hu2 & _).
      split; [now exists err|]. split; [exact Hu2|].
      rewrite Hu2. exact Hfound.
Qed.

Lemma duplicate_email_rejected_witness :
  exists w2,
    User.create demo_crypt jennifer demo_after
    = (w2, Throw (DuplicateKeyError "email")) /\
    users w2 = users demo_after /\
    Mongoose.findOne "email" "jen@example.com" (users w2) = Some demo_saved.
Proof.
  apply (duplicate_email_rejected
           demo_crypt jennifer jennifer "jen@example.com" "Jennifer" "secret123"
           demo_world demo_after demo_saved);
    try reflexivity; try discriminate.
  unfold can_salt, Bcrypt.SALT_CHARS; simpl; lia.
Defined.

(** ** The handler *)

(** Once the three reads of the body succeed, the handler is [create]
    followed by one of two answers. *)
Lemma register_run (crypt_raw : string -> string -> string)
      (data n e p : JS.value) (w : world) :
  JS.get data "name" = Some n ->
  JS.get data "email" = Some e ->
  JS.get data "password" = Some p ->
  App.post_register crypt_raw (App.mkRequest data) w =
  match User.create crypt_raw (App.user_data n e p) w with
  | (w1, Ok saved) =>
      (fst (console_write (Log (Mongoose.toJSON saved)) w1),
       Ok (App.mkResponse 200 [(200, Mongoose.toJSON saved)]))
  | (w1, Throw err) =>
      (fst (console_write (LogError "" err) w1),
       Ok (App.mkResponse 500 [(500, App.failure_body)]))
  end.
Proof.
  intros Hn He Hp.
  unfold App.post_register, App.register, App.member. cbn [App.body].
  rewrite Hn, He, Hp. unfold User.create, bind, ret, try_catch.
  destruct (User.new (App.user_data n e p) w) as [w0 [user|err]] eqn:Hnew.
  - destruct (User.save crypt_raw user w0) as [w1 [saved|err]]; reflexivity.
  - destruct (new_run (App.user_data n e p) w) as (d & Hd & _).
    rewrite Hd in Hnew. discriminate.
Qed.

Lemma get_defined (data : JS.value) (k : string) :
  data <> JS.Undefined -> data <> JS.Null ->
  exists v, JS.get data k = Some v.
Proof.
  intros Hu Hn. destruct data; simpl; eauto; congruence.
Qed.

(** C5. Whatever error the save of a registration ends in, the handler
    catches it, logs it, and answers once with status 500 and the fixed
    body; the answer does not depend on the error. *)
Theorem failure_response_uniform
    (crypt_raw : string -> string -> string)
    (data n e p : JS.value) (w w1 : world) (err : error) :
  JS.get data "name" = Some n ->
  JS.get data "email" = Some e ->
  JS.get data "password" = Some p ->
  User.create crypt_raw (App.user_data n e p) w = (w1, Throw err) ->
  exists w',
    App.post_register crypt_raw (App.mkRequest data) w =
    (w', Ok (App.mkResponse 500
                            [(500, JS.Obj [("error", JS.Str "Failed to save user")])])) /\
    console w' = (console w ++ [LogError "" err])%list /\
    users w' = users w /\
    ((exists paths, err = ValidationError paths)
     \/ (exists msg, err = HashingError msg)
     \/ (exists msg, err = ConnectivityError msg)
     \/ err = DuplicateKeyError "email").
Proof.
  intros Hn He Hp Hfail.
  rewrite (register_run crypt_raw data n e p w Hn He Hp), Hfail.
  eexists. split; [reflexivity|].
  apply create_throw_inv in Hfail. destruct Hfail as (Hu & _ & Ho & _ & Hk).
  cbn [fst console_write console users]. rewrite Ho, Hu.
  split; [reflexivity | split; [reflexivity | exact Hk]].
Qed.

Lemma failure_response_uniform_witness :
  exists w',
    App.post_register demo_crypt (App.mkRequest jennifer) demo_after =
    (w', Ok (App.mkResponse 500
                            [(500, JS.Obj [("error", JS.Str "Failed to save user")])])) /\
    console w' = (console demo_after ++ [LogError "" (DuplicateKeyError "email")])%list /\
    users w' = users demo_after.
Proof.
  destruct (failure_response_uniform
           demo_crypt jennifer (JS.Str "Jennifer") (JS.Str "jen@example.com")
           (JS.Str "secret123") demo_after
           (fst (User.create demo_crypt jennifer demo_after))
           (DuplicateKeyError "email"))
    as (w' & Hrun & Hlog & Hu & _);
    try reflexivity.
  exists w'. split; [exact Hrun | split; [exact Hlog | exact Hu]].
Defined.

(** The four kinds of failure, each on a concrete request: the client
    sees the same answer every time. *)
Example validation_failure_answer :
  snd (App.post_register demo_crypt (App.mkRequest (JS.Obj [])) demo_world)
  = Ok (App.mkResponse 500 [(500, App.failure_body)]).
Proof. reflexivity. Qed.

Example duplicate_failure_answer :
  snd (App.post_register demo_crypt (App.mkRequest jennifer) demo_after)
  = Ok (App.mkResponse 500 [(500, App.failure_body)]).
Proof. reflexivity. Qed.

Example hashing_failure_answer :
  snd (App.post_register demo_crypt (App.mkRequest jennifer)
                         (set_entropy "" demo_world))
  = Ok (App.mkResponse 500 [(500, App.failure_body)]).
Proof. reflexivity. Qed.

Example connectivity_failure_answer :
  snd (App.post_register demo_crypt (App.mkRequest jennifer)
                         (set_connected false demo_world))
  = Ok (App.mkResponse 500 [(500, App.failure_body)]).
Proof. reflexivity. Qed.

Lemma toJSON_saved (d : document) (n e dig : string) (v : N) :
  name d = Some n -> email d = Some e -> password d = Some dig ->
  __v d = Some v ->
  Mongoose.toJSON d =
  JS.Obj [ ("name", JS.Str n); ("email", JS.Str e); ("password", JS.Str dig);
           ("_id", JS.Str (Mongoose.oid_string (_id d)));
           ("__v", JS.Num (Z.of_N v)) ].
Proof.
  intros Hn He Hp Hv. unfold Mongoose.toJSON. now rewrite Hn, He, Hp, Hv.
Qed.

(** C7. When the save of a registration succeeds, the handler answers
    once, with status 200 and the JSON of the stored document: its name
    and email, the id the document was given, the digest as its password,
    and its version. *)
Theorem success_response_is_stored_user
    (crypt_raw : string -> string -> string)
    (data n e p : JS.value) (w w1 : world) (saved : document) :
  JS.get data "name" = Some n ->
  JS.get data "email" = Some e ->
  JS.get data "password" = Some p ->
  User.create crypt_raw (App.user_data n e p) w = (w1, Ok saved) ->
  exists w' sn se plain,
    App.post_register crypt_raw (App.mkRequest data) w =
    (w', Ok (App.mkResponse 200 [(200, Mongoose.toJSON saved)])) /\
    users w' = (users w ++ [saved])%list /\
    _id saved = next_oid w /\
    password saved = Some (Bcrypt.digest crypt_raw plain (upcoming_salt w)) /\
    Mongoose.toJSON saved =
    JS.Obj [ ("name", JS.Str sn); ("email", JS.Str se);
             ("password",
              JS.Str (Bcrypt.digest crypt_raw plain (upcoming_salt w)));
             ("_id", JS.Str (Mongoose.oid_string (next_oid w)));
             ("__v", JS.Num 0) ].
Proof.
  intros Hn He Hp Hok.
  rewrite (register_run crypt_raw data n e p w Hn He Hp), Hok.
  destruct (new_run (App.user_data n e p) w) as (d & Hnew & Hid & _).
  unfold User.create, bind in Hok. rewrite Hnew in Hok.
  apply save_ok_inv in Hok.
  destruct Hok as (plain & Hv & Hplain & _ & _ & _ & Hsaved & Hw1).
  apply validate_userSchema in Hv. destruct Hv as (Hvn & Hve & _).
  apply fails_false in Hvn, Hve.
  destruct Hvn as (_ & sn & Hsn & _). destruct Hve as (_ & se & Hse & _).
  eexists. exists sn, se, plain. split; [reflexivity|].
  change (upcoming_salt (set_next_oid (N.succ (next_oid w)) w))
    with (upcoming_salt w) in Hsaved.
  split; [rewrite Hw1; reflexivity|].
  split; [rewrite Hsaved; exact Hid|].
  split; [rewrite Hsaved; reflexivity|].
  rewrite <- Hid.
  replace (_id d) with (_id saved) by (rewrite Hsaved; reflexivity).
  apply (toJSON_saved saved sn se _ 0); rewrite Hsaved; cbn; auto.
Qed.

Lemma success_response_is_stored_user_witness :
  exists w',
    App.post_register demo_crypt (App.mkRequest jennifer) demo_world =
    (w', Ok (App.mkResponse 200 [(200, Mongoose.toJSON demo_saved)])) /\
    users w' = [demo_saved].
Proof.
  destruct (success_response_is_stored_user
              demo_crypt jennifer (JS.Str "Jennifer") (JS.Str "jen@example.com")
              (JS.Str "secret123") demo_world demo_after demo_saved)
    as (w' & _ & _ & _ & Hrun & Hu & _);
    try reflexivity.
  exists w'. split; [exact Hrun | exact Hu].
Defined.

(** C9, as stated, fails: with no parsed body the first read of the body
    throws before the [try], so the handler answers nothing. *)
Lemma register_throws_without_body :
  App.post_register demo_crypt (App.mkRequest JS.Undefined) demo_world
  = (demo_world,
     Throw (TypeError "Cannot read properties of undefined (reading 'name')"))
  /\ ~ answered_once
       (App.post_register demo_crypt (App.mkRequest JS.Undefined) demo_world).
Proof.
  split; [reflexivity|].
  intros (w' & res & r & Hout & _). discriminate Hout.
Qed.

(** C9, amended. For every request whose parsed body is neither
    [undefined] nor [null] (an empty object, an array and a primitive
    included), the handler returns normally having sent exactly one
    response: the saved user with status 200, or status 500 with the fixed
    body. *)
Theorem register_answers_once
    (crypt_raw : string -> string -> string)
    (req : App.request) (w : world) :
  App.body req <> JS.Undefined ->
  App.body req <> JS.Null ->
  answered_once (App.post_register crypt_raw req w).
Proof.
  intros Hu Hn. destruct req as [data]. cbn [App.body] in Hu, Hn.
  destruct (get_defined data "name" Hu Hn) as (n & Hgn).
  destruct (get_defined data "email" Hu Hn) as (e & Hge).
  destruct (get_defined data "password" Hu Hn) as (p & Hgp).
  rewrite (register_run crypt_raw data n e p w Hgn Hge Hgp).
  destruct (User.create crypt_raw (App.user_data n e p) w)
    as [w1 [saved|err]] eqn:Hc; unfold answered_once.
  - do 3 eexists. split; [reflexivity|]. split; [reflexivity|].
    right. exists saved. split; [reflexivity|].
    apply create_ok_inv in Hc. destruct Hc as (Hus & _).
    cbn [fst console_write users]. rewrite Hus.
    apply in_or_app. right. now left.
  - do 3 eexists. split; [reflexivity|]. split; [reflexivity|]. now left.
Qed.

Lemma register_answers_once_witness :
  answered_once (App.post_register demo_crypt (App.mkRequest (JS.Obj [])) demo_world)
  /\ answered_once (App.post_register demo_crypt (App.mkRequest (JS.Str "x")) demo_world).
Proof.
  split; apply register_answers_once; discriminate.
Defined.

(** C10. Two bodies that agree on name, email and password are handled
    alike: same response, same world afterwards. Whatever else a body
    carries reaches neither the candidate nor the store. *)
Theorem extra_properties_ignored
    (crypt_raw : string -> string -> string)
    (data data' : JS.value) (w : world) :
  JS.get data "name" = JS.get data' "name" ->
  JS.get data "email" = JS.get data' "email" ->
  JS.get data "password" = JS.get data' "password" ->
  App.post_register crypt_raw (App.mkRequest data) w =
  App.post_register crypt_raw (App.mkRequest data') w.
Proof.
  intros Hn He Hp.
  unfold App.post_register, App.register, App.member. cbn [App.body].
  rewrite Hn, He, Hp. reflexivity.
Qed.

Lemma extra_properties_ignored_witness :
  App.post_register demo_crypt (App.mkRequest jennifer) demo_world =
  App.post_register demo_crypt
    (App.mkRequest
       (JS.Obj [ ("role", JS.Str "admin");
                 ("name", JS.Str "Jennifer");
                 ("_id", JS.Str "42");
                 ("email", JS.Str "jen@example.com");
                 ("password", JS.Str "secret123");
                 ("__v", JS.Num 7) ]))
    demo_world.
Proof.
  apply extra_properties_ignored; reflexivity.
Defined.

(** ** Two runs of the hook *)


Lemma upcoming_salt_length (w : world) :
  can_salt w -> String.length (upcoming_salt w) = Bcrypt.SALT_LENGTH.
Proof.
  intros H. unfold upcoming_salt. rewrite length_append, length_take by exact H.
  reflexivity.
Qed.

Lemma compare_digest (crypt_raw : string -> string -> string)
      (plain salt : string) :
  String.length salt = Bcrypt.SALT_LENGTH ->
  Bcrypt.compare crypt_raw plain (Bcrypt.digest crypt_raw plain salt) = true.
Proof.
  intros Hl. unfold Bcrypt.compare.
  replace (take Bcrypt.SALT_LENGTH (Bcrypt.digest crypt_raw plain salt))
    with salt; [apply String.eqb_refl|].
  unfold Bcrypt.digest. rewrite <- Hl. symmetry. apply take_length_append.
Qed.




(** ** Start-up *)

(** C8. With the connection string absent, or one on which no cluster
    answers, the connection attempt is rejected and the rejection is
    logged; the process stays alive, no connection is up, and the server
    is listening on its port. The server line is logged first: the
    rejection reaches [.catch] only after the top level has run. *)
Theorem server_listens_without_store (env : App.environment) (w : world) :
  App.ATLAS_URL env = None
  \/ (exists u, App.ATLAS_URL env = Some u /\ App.reachable env u = false) ->
  exists w' e,
    App.connect env (App.ATLAS_URL env) w = (w, Ok (App.Rejected e)) /\
    App.main env w = (w', true) /\
    listening w' = Some App.port /\
    connected w' = connected w /\
    users w' = users w /\
    console w' =
      (console w ++
         [ LogText "Server is running at http://localhost:3000";
           LogError "Error connecting to MongoDB:" e ])%list.
Proof.
  intros [Hnone | (u & Hu & Hdown)];
    unfold App.main, App.connecting, App.connect, bind.
  - rewrite Hnone. do 2 eexists. split; [reflexivity|].
    cbn. rewrite <- app_assoc. repeat split.
  - rewrite Hu, Hdown. do 2 eexists. split; [reflexivity|].
    cbn. rewrite <- app_assoc. repeat split.
Qed.

Lemma server_listens_without_store_witness :
  exists w',
    App.main (App.mkEnvironment None (fun _ => true))
             (mkWorld [] false "" 1 [] [] None) = (w', true) /\
    listening w' = Some 3000 /\
    connected w' = false.
Proof.
  destruct (server_listens_without_store
              (App.mkEnvironment None (fun _ => true))
              (mkWorld [] false "" 1 [] [] None))
    as (w' & e & _ & Hmain & Hl & Hc & _).
  - left. reflexivity.
  - exists w'. split; [exact Hmain | split; [exact Hl | exact Hc]].
Defined.

(** The spec's end-to-end scenario: the first registration is answered
    with the stored user, the same registration again with the failure. *)
Example end_to_end_scenario :
  let first := App.post_register demo_crypt (App.mkRequest jennifer) demo_world in
  let second := App.post_register demo_crypt (App.mkRequest jennifer) (fst first) in
  snd first
  = Ok (App.mkResponse 200
          [(200, JS.Obj [ ("name", JS.Str "Jennifer");
                          ("email", JS.Str "jen@example.com");
                          ("password", JS.Str demo_digest);
                          ("_id", JS.Str "0x1");
                          ("__v", JS.Num 0) ])])
  /\ snd second
    = Ok (App.mkResponse 500
            [(500, JS.Obj [("error", JS.Str "Failed to save user")])])
  /\ users (fst second) = [demo_saved].
Proof. repeat split. Qed.

(** With a cluster answering on the configured string, the connection
    comes up and the server listens all the same. *)
Example server_listens_with_store :
  App.main (App.mkEnvironment (Some "mongodb+srv://cluster0")
                              (String.eqb "mongodb+srv://cluster0"))
           (mkWorld [] false "" 1 [] [] None)
  = (mkWorld [] true "" 1 []
             [ LogText "Server is running at http://localhost:3000";
               LogText "Connected to MongoDB" ]
             (Some 3000), true).
Proof. reflexivity. Qed.

(** * Beyond the claims *)

(** ** One request, case by case *)

(** Whatever [create] ends in, it leaves the connection, the port and the
    console alone. *)
Lemma create_frame (crypt_raw : string -> string -> string)
      (candidate : JS.value) (w w1 : world) (r : result document) :
  User.create crypt_raw candidate w = (w1, r) ->
  connected w1 = connected w /\ listening w1 = listening w /\
  console w1 = console w.
Proof.
  intros H. destruct r as [saved|err].
  - destruct (new_run candidate w) as (d & Hnew & _).
    unfold User.create, bind in H. rewrite Hnew in H.
    apply save_ok_inv in H.
    destruct H as (plain & _ & _ & _ & _ & _ & _ & Hw1).
    rewrite Hw1. repeat split.
  - apply create_throw_inv in H. tauto.
Qed.

Lemma append_assoc (a b c : string) : (a ++ b) ++ c = a ++ (b ++ c).
Proof. induction a as [|x a IH]; simpl; [reflexivity | now rewrite IH]. Qed.

Lemma digest_is_shaped (crypt_raw : string -> string -> string)
      (plain : string) (w : world) :
  can_salt w ->
  digest_shaped (Bcrypt.digest crypt_raw plain (upcoming_salt w)) = true.
Proof.
  intros Hs. unfold digest_shaped. apply andb_true_intro. split.
  - unfold Bcrypt.digest, upcoming_salt.
    rewrite append_assoc. apply prefix_append.
  - apply Nat.leb_le. unfold Bcrypt.digest.
    rewrite length_append, (upcoming_salt_length w Hs). lia.
Qed.

(** What [create] stored when it succeeded. *)
Lemma create_ok_shape (crypt_raw : string -> string -> string)
      (candidate : JS.value) (w w1 : world) (saved : document) :
  User.create crypt_raw candidate w = (w1, Ok saved) ->
  can_salt w /\
  well_stored saved /\
  exists plain,
    password saved = Some (Bcrypt.digest crypt_raw plain (upcoming_salt w)).
Proof.
  intros H.
  destruct (new_run candidate w) as (d & Hnew & _).
  unfold User.create, bind in H. rewrite Hnew in H.
  apply save_ok_inv in H.
  destruct H as (plain & Hv & _ & Hs & _ & _ & Hsaved & _).
  change (upcoming_salt (set_next_oid (N.succ (next_oid w)) w))
    with (upcoming_salt w) in Hsaved.
  change (can_salt w) in Hs.
  apply validate_userSchema in Hv. destruct Hv as (Hn & He & _).
  apply fails_false in Hn, He.
  destruct Hn as (_ & n & Hn & Hn0). destruct He as (_ & e & He & He0).
  split; [exact Hs|]. rewrite Hsaved. split.
  - split; [exists n; now split|]. split; [exists e; now split|].
    split; [|reflexivity].
    eexists. split; [reflexivity|]. now apply digest_is_shaped.
  - exists plain. reflexivity.
Qed.

(** The three ways a registration request ends. *)
Lemma post_register_cases (crypt_raw : string -> string -> string)
      (req : App.request) (w : world) :
  ((App.body req = JS.Undefined \/ App.body req = JS.Null) /\
   exists msg, App.post_register crypt_raw req w = (w, Throw (TypeError msg)))
  \/ (exists n e p w1 err,
         User.create crypt_raw (App.user_data n e p) w = (w1, Throw err) /\
         App.post_register crypt_raw req w =
         (fst (console_write (LogError "" err) w1),
          Ok (App.mkResponse 500 [(500, App.failure_body)])))
  \/ (exists n e p w1 saved,
         User.create crypt_raw (App.user_data n e p) w = (w1, Ok saved) /\
         App.post_register crypt_raw req w =
         (fst (console_write (Log (Mongoose.toJSON saved)) w1),
          Ok (App.mkResponse 200 [(200, Mongoose.toJSON saved)]))).
Proof.
  destruct req as [data].
  assert (Hdef : data <> JS.Undefined -> data <> JS.Null ->
                 exists n e p,
                   JS.get data "name" = Some n /\
                   JS.get data "email" = Some e /\
                   JS.get data "password" = Some p).
  { intros Hu Hn.
    destruct (get_defined data "name" Hu Hn) as (n & Hgn).
    destruct (get_defined data "email" Hu Hn) as (e & Hge).
    destruct (get_defined data "password" Hu Hn) as (p & Hgp).
    exists n, e, p. now repeat split. }
  assert (Hrun : forall n e p,
             JS.get data "name" = Some n ->
             JS.get data "email" = Some e ->
             JS.get data "password" = Some p ->
             (exists n e p w1 err,
                 User.create crypt_raw (App.user_data n e p) w = (w1, Throw err) /\
                 App.post_register crypt_raw (App.mkRequest data) w =
                 (fst (console_write (LogError "" err) w1),
                  Ok (App.mkResponse 500 [(500, App.failure_body)])))
             \/ (exists n e p w1 saved,
                    User.create crypt_raw (App.user_data n e p) w = (w1, Ok saved) /\
                    App.post_register crypt_raw (App.mkRequest data) w =
                    (fst (console_write (Log (Mongoose.toJSON saved)) w1),
                     Ok (App.mkResponse 200 [(200, Mongoose.toJSON saved)])))).
  { intros n e p Hgn Hge Hgp.
    rewrite (register_run crypt_raw data n e p w Hgn Hge Hgp).
    destruct (User.create crypt_raw (App.user_data n e p) w)
      as [w1 [saved|err]] eqn:Hc.
    - right. exists n, e, p, w1, saved. now split.
    - left. exists n, e, p, w1, err. now split. }
  destruct data;
    try (right;
         destruct Hdef as (n & e & p & Hgn & Hge & Hgp); try discriminate;
         exact (Hrun n e p Hgn Hge Hgp)).
  - left. split; [now left|]. eexists. reflexivity.
  - left. split; [now right|]. eexists. reflexivity.
Qed.

Lemma register_store_step
      (crypt_raw : string -> string -> string)
      (req : App.request) (w : world) :
  users (fst (App.post_register crypt_raw req w)) = users w
  \/ exists saved,
      users (fst (App.post_register crypt_raw req w)) = (users w ++ [saved])%list.
Proof.
  destruct (post_register_cases crypt_raw req w)
    as [(_ & msg & ->) | [(n & e & p & w1 & err & Hc & ->)
                         | (n & e & p & w1 & saved & Hc & ->)]];
    cbn [fst console_write users].
  - now left.
  - apply create_throw_inv in Hc. left. tauto.
  - apply create_ok_inv in Hc. right. exists saved. tauto.
Qed.

(** X1. A registration request leaves the collection as it was, or
    appends exactly one document, and it appends exactly when it answers
    200 with that document; it never removes or rewrites a stored
    document, and never touches the connection or the port. *)
Theorem register_appends_at_most_one
    (crypt_raw : string -> string -> string)
    (req : App.request) (w : world) :
  ((users (fst (App.post_register crypt_raw req w)) = users w /\
    ((exists msg,
         snd (App.post_register crypt_raw req w) = Throw (TypeError msg))
     \/ snd (App.post_register crypt_raw req w)
        = Ok (App.mkResponse 500 [(500, App.failure_body)])))
   \/ (exists saved,
          users (fst (App.post_register crypt_raw req w))
          = (users w ++ [saved])%list /\
          snd (App.post_register crypt_raw req w)
          = Ok (App.mkResponse 200 [(200, Mongoose.toJSON saved)]))) /\
  connected (fst (App.post_register crypt_raw req w)) = connected w /\
  listening (fst (App.post_register crypt_raw req w)) = listening w.
Proof.
  destruct (post_register_cases crypt_raw req w)
    as [(_ & msg & ->) | [(n & e & p & w1 & err & Hc & ->)
                         | (n & e & p & w1 & saved & Hc & ->)]];
    cbn [fst snd console_write users connected listening].
  - split; [|split; reflexivity]. left. split; [reflexivity|]. left. now exists msg.
  - destruct (create_frame _ _ _ _ _ Hc) as (Hcn & Hl & _).
    apply create_throw_inv in Hc. destruct Hc as (Hu & _).
    split; [|split; assumption]. left. split; [exact Hu|]. now right.
  - destruct (create_frame _ _ _ _ _ Hc) as (Hcn & Hl & _).
    apply create_ok_inv in Hc. destruct Hc as (Hu & _).
    split; [|split; assumption]. right. exists saved. now split.
Qed.



(** X11. A body that has none of name, email and password (an empty
    object, an array, a number, a string) is answered 500: validation
    refuses all three paths, nothing is hashed, no insert is issued, and
    the collection and the random source are as they were. *)
Theorem body_without_fields_rejected
    (crypt_raw : string -> string -> string)
    (data : JS.value) (w : world) :
  JS.get data "name" = Some JS.Undefined ->
  JS.get data "email" = Some JS.Undefined ->
  JS.get data "password" = Some JS.Undefined ->
  exists w',
    App.post_register crypt_raw (App.mkRequest data) w =
    (w', Ok (App.mkResponse 500 [(500, App.failure_body)])) /\
    users w' = users w /\ calls w' = calls w /\ entropy w' = entropy w /\
    console w' =
    (console w ++ [LogError "" (ValidationError ["name"; "email"; "password"])])%list.
Proof.
  intros Hn He Hp.
  rewrite (register_run crypt_raw data _ _ _ w Hn He Hp).
  eexists. split; [reflexivity|]. repeat split.
Qed.

Lemma body_without_fields_rejected_witness :
  exists w',
    App.post_register demo_crypt (App.mkRequest (JS.Arr [JS.Num 1])) demo_world =
    (w', Ok (App.mkResponse 500 [(500, App.failure_body)])) /\
    users w' = users demo_world /\ calls w' = calls demo_world /\
    entropy w' = entropy demo_world /\
    console w' =
    (console demo_world
       ++ [LogError "" (ValidationError ["name"; "email"; "password"])])%list.
Proof.
  apply body_without_fields_rejected; reflexivity.
Defined.

(** X12. With [req.body] undefined or null the handler throws a TypeError
    at its first read of the body, before the [try]: it sends nothing,
    logs nothing, and the world is exactly as it was. *)
Theorem register_throws_on_missing_body
    (crypt_raw : string -> string -> string)
    (req : App.request) (w : world) :
  App.body req = JS.Undefined \/ App.body req = JS.Null ->
  exists msg,
    App.post_register crypt_raw req w = (w, Throw (TypeError msg)).
Proof.
  intros H. destruct req as [data]. cbn [App.body] in H.
  destruct H as [-> | ->]; eexists; reflexivity.
Qed.

Lemma register_throws_on_missing_body_witness :
  exists msg,
    App.post_register demo_crypt (App.mkRequest JS.Null) demo_after
    = (demo_after, Throw (TypeError msg)).
Proof.
  apply register_throws_on_missing_body. right. reflexivity.
Defined.

(** ** Any number of requests *)

Lemma field_eqb_eq (a b : field) : Mongoose.field_eqb a b = true <-> a = b.
Proof.
  destruct a as [x|], b as [y|]; simpl; try (split; congruence).
  rewrite String.eqb_eq. split; congruence.
Qed.

Lemma existsb_email_false (f : field) (coll : list document) :
  existsb (fun x => Mongoose.field_eqb (email x) f) coll = false ->
  ~ In f (map email coll).
Proof.
  induction coll as [|d coll IH]; simpl; intros H; [tauto|].
  apply orb_false_iff in H. destruct H as [Hd Hc].
  intros [Heq | Hin]; [|now apply IH].
  apply field_eqb_eq in Heq. congruence.
Qed.

Lemma NoDup_snoc {A} (l : list A) (x : A) :
  NoDup l -> ~ In x l -> NoDup (l ++ [x]).
Proof.
  induction l as [|y l IH]; simpl; intros Hl Hx.
  - constructor; [tauto | constructor].
  - inversion Hl as [|? ? Hy Hl']; subst. constructor.
    + rewrite in_app_iff. simpl. intuition congruence.
    + apply IH; tauto.
Qed.

Lemma find_app_first {A} (f : A -> bool) (l l' : list A) (x : A) :
  find f l = Some x -> find f (l ++ l') = Some x.
Proof.
  induction l as [|y l IH]; simpl; [discriminate|].
  destruct (f y); [tauto | exact IH].
Qed.

(** A property of the collection that every single request keeps is kept
    by any sequence of requests. *)
Lemma serve_invariant (crypt_raw : string -> string -> string)
      (P : list document -> Prop) :
  (forall req w,
      P (users w) -> P (users (fst (App.post_register crypt_raw req w)))) ->
  forall reqs w, P (users w) -> P (users (serve crypt_raw reqs w)).
Proof.
  intros Hstep reqs. induction reqs as [|req reqs IH]; intros w Hw; simpl.
  - exact Hw.
  - apply IH, Hstep, Hw.
Qed.

(** The store only grows. *)
Lemma serve_appends (crypt_raw : string -> string -> string)
      (reqs : list App.request) (w : world) :
  exists more, users (serve crypt_raw reqs w) = (users w ++ more)%list.
Proof.
  revert w. induction reqs as [|req reqs IH]; intros w; simpl.
  - exists []. now rewrite app_nil_r.
  - destruct (IH (fst (App.post_register crypt_raw req w))) as (more & ->).
    destruct (register_store_step crypt_raw req w)
      as [-> | (saved & ->)].
    + now exists more.
    + exists (saved :: more). now rewrite <- app_assoc.
Qed.

(** X2. No two stored users ever share an email: if the emails in the
    collection are pairwise distinct, they still are after any sequence
    of registration requests, whatever the bodies. *)
Theorem serve_keeps_emails_distinct
    (crypt_raw : string -> string -> string)
    (reqs : list App.request) (w : world) :
  distinct_emails w ->
  distinct_emails (serve crypt_raw reqs w).
Proof.
  unfold distinct_emails.
  apply (serve_invariant crypt_raw (fun coll => NoDup (map email coll))).
  clear. intros req w Hw.
  destruct (post_register_cases crypt_raw req w)
    as [(_ & msg & ->) | [(n & e & p & w1 & err & Hc & ->)
                         | (n & e & p & w1 & saved & Hc & ->)]];
    cbn [fst console_write users].
  - exact Hw.
  - apply create_throw_inv in Hc. destruct Hc as (-> & _). exact Hw.
  - apply create_ok_inv in Hc. destruct Hc as (-> & _ & _ & _ & Hdup & _).
    rewrite map_app. cbn [map]. apply NoDup_snoc; [exact Hw|].
    now apply existsb_email_false.
Qed.

Lemma serve_keeps_emails_distinct_witness :
  distinct_emails
    (serve demo_crypt
           [App.mkRequest jennifer; App.mkRequest (JS.Obj []);
            App.mkRequest jennifer]
           demo_world).
Proof.
  apply serve_keeps_emails_distinct. constructor.
Defined.

(** X3. Every document the pipeline stores has a non-empty name and
    email, version 0, and for a password a string of the digest's shape:
    no request sequence puts anything else into the collection. *)
Theorem serve_keeps_documents_well_stored
    (crypt_raw : string -> string -> string)
    (reqs : list App.request) (w : world) :
  Forall well_stored (users w) ->
  Forall well_stored (users (serve crypt_raw reqs w)).
Proof.
  apply (serve_invariant crypt_raw (Forall well_stored)).
  clear. intros req w Hw.
  destruct (post_register_cases crypt_raw req w)
    as [(_ & msg & ->) | [(n & e & p & w1 & err & Hc & ->)
                         | (n & e & p & w1 & saved & Hc & ->)]];
    cbn [fst console_write users].
  - exact Hw.
  - apply create_throw_inv in Hc. destruct Hc as (-> & _). exact Hw.
  - destruct (create_ok_shape _ _ _ _ _ Hc) as (_ & Hsaved & _).
    apply create_ok_inv in Hc. destruct Hc as (-> & _).
    apply Forall_app. split; [exact Hw|]. now constructor.
Qed.

Lemma serve_keeps_documents_well_stored_witness :
  Forall well_stored
         (users (serve demo_crypt
                       [App.mkRequest jennifer; App.mkRequest (JS.Str "x")]
                       demo_world)).
Proof.
  apply serve_keeps_documents_well_stored. constructor.
Defined.

(** X4. A registered user stays registered and unchanged: the document
    found under an email is found under it, the same, after any further
    sequence of registration requests. *)
Theorem serve_keeps_registered_record
    (crypt_raw : string -> string -> string)
    (reqs : list App.request) (w : world) (e : string) (d : document) :
  Mongoose.findOne "email" e (users w) = Some d ->
  Mongoose.findOne "email" e (users (serve crypt_raw reqs w)) = Some d.
Proof.
  intros H. destruct (serve_appends crypt_raw reqs w) as (more & ->).
  rewrite findOne_email in *. now apply find_app_first.
Qed.

Lemma serve_keeps_registered_record_witness :
  Mongoose.findOne "email" "jen@example.com"
    (users (serve demo_crypt
                  [App.mkRequest jennifer; App.mkRequest JS.Undefined]
                  demo_after))
  = Some demo_saved.
Proof.
  apply serve_keeps_registered_record. reflexivity.
Defined.

(** ** The hook on its own *)

Lemma length_drop (n : nat) (s : string) :
  n <= String.length s ->
  String.length s = n + String.length (drop n s).
Proof.
  revert s; induction n as [|n IH]; intros [|c s] H; simpl in *; try lia.
  now rewrite <- IH by lia.
Qed.

Lemma pre_save_run (crypt_raw : string -> string -> string)
      (this : document) (w : world) :
  User.pre_save crypt_raw this w =
  if (String.length (entropy w) <? Bcrypt.SALT_CHARS)%nat
  then (w, Throw (HashingError "random source failed"))
  else
    match password this with
    | None =>
        (mkWorld (users w) (connected w) (drop Bcrypt.SALT_CHARS (entropy w))
                 (next_oid w) (calls w ++ [CallGenSalt 10 (upcoming_salt w)])
                 (console w) (listening w),
         Throw (HashingError "Illegal arguments"))
    | Some plain =>
        (mkWorld (users w) (connected w) (drop Bcrypt.SALT_CHARS (entropy w))
                 (next_oid w)
                 ((calls w ++ [CallGenSalt 10 (upcoming_salt w)])
                    ++ [CallHash plain (upcoming_salt w)
                                 (Bcrypt.digest crypt_raw plain (upcoming_salt w))])
                 (console w) (listening w),
         Ok (User.set_password this
               (Bcrypt.digest crypt_raw plain (upcoming_salt w))))
    end.
Proof.
  unfold User.pre_save, Bcrypt.genSalt, Bcrypt.random, bind.
  destruct (String.length (entropy w) <? Bcrypt.SALT_CHARS)%nat; [reflexivity|].
  unfold User.this_password. destruct (password this); reflexivity.
Qed.

(** X5. The hook hashes whatever the password path holds, a digest
    included: run on a document it has already hashed, it stores the
    digest of the first digest, and that second digest verifies against
    the first digest taken as the plain text. *)
Theorem hook_rehashes_digest
    (crypt_raw : string -> string -> string)
    (this d1 d2 : document) (plain : string) (w w1 w2 : world) :
  password this = Some plain ->
  User.pre_save crypt_raw this w = (w1, Ok d1) ->
  User.pre_save crypt_raw d1 w1 = (w2, Ok d2) ->
  exists dig1 dig2,
    password d1 = Some dig1 /\
    dig1 = Bcrypt.digest crypt_raw plain (upcoming_salt w) /\
    password d2 = Some dig2 /\
    dig2 = Bcrypt.digest crypt_raw dig1 (upcoming_salt w1) /\
    Bcrypt.compare crypt_raw dig1 dig2 = true /\
    calls w2 =
    (calls w ++
       [ CallGenSalt 10 (upcoming_salt w); CallHash plain (upcoming_salt w) dig1;
         CallGenSalt 10 (upcoming_salt w1); CallHash dig1 (upcoming_salt w1) dig2 ])%list.
Proof.
  intros Hp H1 H2.
  rewrite pre_save_run, Hp in H1.
  destruct (String.length (entropy w) <? Bcrypt.SALT_CHARS)%nat; [discriminate|].
  injection H1 as <- <-.
  rewrite pre_save_run in H2. cbn [password User.set_password] in H2.
  destruct (String.length _ <? Bcrypt.SALT_CHARS)%nat eqn:Hs2; [discriminate|].
  injection H2 as <- <-.
  do 2 eexists. repeat split.
  - apply compare_digest, upcoming_salt_length.
    apply Nat.ltb_ge in Hs2. exact Hs2.
  - cbn [calls]. rewrite <- !app_assoc. reflexivity.
Qed.

Lemma hook_rehashes_digest_witness :
  exists dig1 dig2,
    dig1 = demo_digest /\
    dig2 = ("$2a$10$IjZAgcfl7p92ldGxad68LJ" ++ demo_crypt dig1 "") /\
    Bcrypt.compare demo_crypt dig1 dig2 = true.
Proof.
  destruct (hook_rehashes_digest
              demo_crypt demo_user
              (snd_ok demo_user (User.pre_save demo_crypt demo_user demo_world))
              (snd_ok demo_user
                 (User.pre_save demo_crypt
                    (snd_ok demo_user (User.pre_save demo_crypt demo_user demo_world))
                    (fst (User.pre_save demo_crypt demo_user demo_world))))
              "secret123" demo_world
              (fst (User.pre_save demo_crypt demo_user demo_world))
              (fst (User.pre_save demo_crypt
                      (snd_ok demo_user (User.pre_save demo_crypt demo_user demo_world))
                      (fst (User.pre_save demo_crypt demo_user demo_world)))))
    as (dig1 & dig2 & _ & H1 & _ & H2 & Hc & _);
    try reflexivity.
  exists dig1, dig2. rewrite H2 at 1. rewrite H1 at 1 2.
  repeat split. exact Hc.
Defined.

(** X6. When the hook succeeds it has changed the password of the
    document and nothing else of it, has taken exactly one salt off the
    random source, and has touched neither the collection, the
    connection, the id generator nor the console. *)
Theorem hook_changes_password_only
    (crypt_raw : string -> string -> string)
    (this d : document) (w w' : world) :
  User.pre_save crypt_raw this w = (w', Ok d) ->
  (_id d = _id this /\ name d = name this /\ email d = email this /\
   __v d = __v this /\ castErrors d = castErrors this) /\
  (users w' = users w /\ connected w' = connected w /\
   next_oid w' = next_oid w /\ console w' = console w /\
   listening w' = listening w) /\
  entropy w' = drop Bcrypt.SALT_CHARS (entropy w) /\
  String.length (entropy w) = Bcrypt.SALT_CHARS + String.length (entropy w').
Proof.
  intros H. rewrite pre_save_run in H.
  destruct (String.length (entropy w) <? Bcrypt.SALT_CHARS)%nat eqn:Hs;
    [discriminate|].
  destruct (password this); [|discriminate].
  injection H as <- <-.
  cbn [_id name email __v castErrors users connected next_oid console
       listening entropy User.set_password].
  repeat split.
  apply Nat.ltb_ge in Hs. apply length_drop. exact Hs.
Qed.

Lemma hook_changes_password_only_witness :
  name (snd_ok demo_user (User.pre_save demo_crypt demo_user demo_world))
  = Some "Jennifer" /\
  users (fst (User.pre_save demo_crypt demo_user demo_world)) = [] /\
  entropy (fst (User.pre_save demo_crypt demo_user demo_world))
  = "IjZAgcfl7p92ldGxad68LJ".
Proof.
  destruct (hook_changes_password_only
              demo_crypt demo_user
              (snd_ok demo_user (User.pre_save demo_crypt demo_user demo_world))
              demo_world
              (fst (User.pre_save demo_crypt demo_user demo_world)))
    as ((_ & Hn & _) & (Hu & _) & He & _);
    [reflexivity|].
  split; [exact Hn | split; [exact Hu | exact He]].
Defined.

(** X7. The hook succeeds exactly when the random source can serve a salt
    and the password path holds a string. When it fails, the error is a
    HashingError, nothing has been hashed, and the collection is as it
    was. *)
Theorem hook_succeeds_iff
    (crypt_raw : string -> string -> string)
    (this : document) (w : world) :
  ((exists w' d, User.pre_save crypt_raw this w = (w', Ok d))
   <-> (can_salt w /\ password this <> None)) /\
  (forall w' e,
      User.pre_save crypt_raw this w = (w', Throw e) ->
      (exists msg, e = HashingError msg) /\
      users w' = users w /\
      (calls w' = calls w
       \/ calls w' = (calls w ++ [CallGenSalt 10 (upcoming_salt w)])%list)).
Proof.
  rewrite pre_save_run. unfold can_salt.
  destruct (String.length (entropy w) <? Bcrypt.SALT_CHARS)%nat eqn:Hs.
  - apply Nat.ltb_lt in Hs. split.
    + split; [intros (w' & d & H); discriminate | intros (H & _); lia].
    + intros w' e [= <- <-]. split; [now eexists|]. split; [reflexivity|now left].
  - apply Nat.ltb_ge in Hs. destruct (password this) as [plain|]; split.
    + split; [intros _; split; [exact Hs | discriminate]
             | intros _; now do 2 eexists].
    + intros w' e H. discriminate.
    + split; [intros (w' & d & H); discriminate | intros (_ & H); now elim H].
    + intros w' e [= <- <-]. split; [now eexists|].
      split; [reflexivity | now right].
Qed.

(** ** Start-up and what follows *)

(** X8. Whatever the environment, the top level of index.js ends with
    the process alive and the server bound to port 3000; the connection
    is up afterwards exactly if it already was or a cluster answers on
    the configured string; the collection and the random source are not
    touched. *)
Theorem main_always_listens (env : App.environment) (w : world) :
  snd (App.main env w) = true /\
  listening (fst (App.main env w)) = Some App.port /\
  connected (fst (App.main env w))
  = (connected w
     || match App.ATLAS_URL env with
        | Some u => App.reachable env u
        | None => false
        end) /\
  users (fst (App.main env w)) = users w /\
  entropy (fst (App.main env w)) = entropy w.
Proof.
  unfold App.main, App.connecting, App.connect, bind.
  destruct (App.ATLAS_URL env) as [u|]; [destruct (App.reachable env u)|];
    cbn; rewrite ?orb_true_r, ?orb_false_r; repeat split.
Qed.

Lemma main_state (env : App.environment) (w : world) :
  connected (fst (App.main env w))
  = (connected w
     || match App.ATLAS_URL env with
        | Some u => App.reachable env u
        | None => false
        end) /\
  users (fst (App.main env w)) = users w.
Proof.
  unfold App.main, App.connecting, App.connect, bind.
  destruct (App.ATLAS_URL env) as [u|]; [destruct (App.reachable env u)|];
    cbn; rewrite ?orb_true_r, ?orb_false_r; split; reflexivity.
Qed.

Lemma register_disconnected (crypt_raw : string -> string -> string)
      (req : App.request) (w : world) :
  connected w = false ->
  App.body req <> JS.Undefined -> App.body req <> JS.Null ->
  exists w',
    App.post_register crypt_raw req w
    = (w', Ok (App.mkResponse 500 [(500, App.failure_body)])) /\
    users w' = users w.
Proof.
  intros Hc Hu Hn.
  destruct (post_register_cases crypt_raw req w)
    as [([H|H] & _) | [(n & e & p & w1 & err & Hcr & ->)
                      | (n & e & p & w1 & saved & Hcr & ->)]];
    try contradiction.
  - eexists. split; [reflexivity|].
    apply create_throw_inv in Hcr. cbn [fst console_write users]. tauto.
  - destruct (create_frame _ _ _ _ _ Hcr) as (Hcn & _).
    apply create_ok_inv in Hcr. destruct Hcr as (_ & Hup & _). congruence.
Qed.

(** X9. When the connection attempt at start-up fails, the server that
    is left listening answers every registration whose body was parsed
    with status 500 and the fixed body, and stores nothing. *)
Theorem registration_fails_after_failed_startup
    (crypt_raw : string -> string -> string)
    (env : App.environment) (w : world) (req : App.request) :
  connected w = false ->
  App.ATLAS_URL env = None
  \/ (exists u, App.ATLAS_URL env = Some u /\ App.reachable env u = false) ->
  App.body req <> JS.Undefined -> App.body req <> JS.Null ->
  exists w',
    App.post_register crypt_raw req (fst (App.main env w))
    = (w', Ok (App.mkResponse 500 [(500, App.failure_body)])) /\
    users w' = users w.
Proof.
  intros Hc Henv Hu Hn.
  destruct (main_state env w) as (Hconn & Husers).
  assert (Hdown : connected (fst (App.main env w)) = false).
  { rewrite Hconn, Hc.
    destruct Henv as [-> | (u & -> & ->)]; reflexivity. }
  destruct (register_disconnected crypt_raw req _ Hdown Hu Hn) as (w' & Hr & Hus).
  exists w'. split; [exact Hr | now rewrite Hus].
Qed.

Lemma registration_fails_after_failed_startup_witness :
  exists w',
    App.post_register demo_crypt (App.mkRequest jennifer)
      (fst (App.main (App.mkEnvironment (Some "mongodb://nowhere") (fun _ => false))
                     (set_connected false demo_world)))
    = (w', Ok (App.mkResponse 500 [(500, App.failure_body)])) /\
    users w' = users (set_connected false demo_world).
Proof.
  apply registration_fails_after_failed_startup;
    try reflexivity; try discriminate.
  right. exists "mongodb://nowhere". split; reflexivity.
Defined.

(** GET / is answered with status 200 and the greeting in every world
    the server can be in, also the one a failed connection attempt leaves,
    and handling it changes nothing. *)
Lemma root_greets (env : App.environment) (w : world) (req : App.request) :
  App.get_root req (fst (App.main env w))
  = (fst (App.main env w),
     Ok (App.mkResponse 200 [(200, JS.Str "Hello, World!")]))
  /\ App.get_root req w
     = (w, Ok (App.mkResponse 200 [(200, JS.Str "Hello, World!")])).
Proof. split; reflexivity. Qed.

(** ** Hashing comes before the insert *)

(** X13. A well-formed registration under an email that is already taken
    is hashed all the same before it is refused: the hook draws a salt and
    hashes the password, the insert is issued and rejected with a
    DuplicateKeyError, and only the collection is as it was. *)
Theorem duplicate_is_hashed_before_refused
    (crypt_raw : string -> string -> string)
    (candidate : JS.value) (n e p : string) (w : world) (taken : document) :
  JS.get candidate "name" = Some (JS.Str n) -> n <> "" ->
  JS.get candidate "email" = Some (JS.Str e) -> e <> "" ->
  JS.get candidate "password" = Some (JS.Str p) -> p <> "" ->
  Mongoose.findOne "email" e (users w) = Some taken ->
  connected w = true ->
  can_salt w ->
  exists w' refused,
    User.create crypt_raw candidate w = (w', Throw (DuplicateKeyError "email")) /\
    calls w' =
    (calls w ++
       [ CallGenSalt 10 (upcoming_salt w);
         CallHash p (upcoming_salt w)
                  (Bcrypt.digest crypt_raw p (upcoming_salt w));
         CallInsertOne refused ])%list /\
    password refused = Some (Bcrypt.digest crypt_raw p (upcoming_salt w)) /\
    entropy w' = drop Bcrypt.SALT_CHARS (entropy w) /\
    users w' = users w.
Proof.
  intros Hn Hn0 He He0 Hp Hp0 Htaken Hconn Hsalt.
  unfold User.create, bind. rewrite (new_text candidate n e p w Hn He Hp).
  rewrite (save_valid crypt_raw _ _ (validate_text _ n e p Hn0 He0 Hp0)).
  change (entropy (set_next_oid (N.succ (next_oid w)) w)) with (entropy w).
  rewrite (ltb_length_false _ _ Hsalt). cbn [password]. cbv zeta.
  change (connected (set_next_oid (N.succ (next_oid w)) w)) with (connected w).
  rewrite Hconn. cbn [negb email].
  change (users (set_next_oid (N.succ (next_oid w)) w)) with (users w).
  assert (Hex : existsb (fun x => Mongoose.field_eqb (email x) (Some e)) (users w)
                = true).
  { destruct (existsb _ (users w)) eqn:Hx; [reflexivity|].
    apply find_none_existsb in Hx. rewrite findOne_email in Htaken. congruence. }
  rewrite Hex. do 2 eexists. split; [reflexivity|].
  cbn [calls after_hook entropy users]. rewrite <- !app_assoc.
  repeat split.
Qed.

Lemma duplicate_is_hashed_before_refused_witness :
  exists w' refused,
    User.create demo_crypt jennifer demo_after
    = (w', Throw (DuplicateKeyError "email")) /\
    calls w' =
    (calls demo_after ++
       [ CallGenSalt 10 (upcoming_salt demo_after);
         CallHash "secret123" (upcoming_salt demo_after)
                  (Bcrypt.digest demo_crypt "secret123" (upcoming_salt demo_after));
         CallInsertOne refused ])%list /\
    password refused
    = Some (Bcrypt.digest demo_crypt "secret123" (upcoming_salt demo_after)) /\
    entropy w' = drop Bcrypt.SALT_CHARS (entropy demo_after) /\
    users w' = users demo_after.
Proof.
  apply (duplicate_is_hashed_before_refused
           demo_crypt jennifer "Jennifer" "jen@example.com" "secret123"
           demo_after demo_saved);
    try reflexivity; try discriminate.
  unfold can_salt, Bcrypt.SALT_CHARS; simpl; lia.
Defined.
